(** * Folder11: icon-variant resolution and build-set determination

    A shallow embedding of the decision logic of
    [batch_convert_to_ico_pro.py] and [batch_convert_to_ico.py]:
    the base/alternative classification of the [.svg] files of a folder,
    the per-size choice of a source file, the [--changed] filter and the
    commit message computed from [git status --porcelain].

    Python values are modelled as follows.
    - [str] is [string]; the characters are ASCII code points, which is
      where [lower], [isdigit] and [strip] below agree with Python.
    - [int] is [Z]; a [tuple] or [list] is a [list].
    - the [set] [changed_paths] is a [list] read through membership only.
    - a raised exception is the left summand of [result].
    - [os.listdir], the [git] sub-processes, [os.path] and the clock are
      inputs of the model: the directory listing (the same at both calls),
      the outcome of every query, the path functions and the date are
      arguments.
    - the [magick] sub-processes are the output: a run is described by the
      calls of step 1 it makes, one (source path, size) pair per call, in
      order; every call is taken to return ([CalledProcessError] is caught
      on the spot and changes nothing in what follows). *)

From Stdlib Require Import String Ascii List ZArith Arith Lia Bool.
From Stdlib Require Import Sorting.Sorted Sorting.Permutation.
From Stdlib Require Import Decimal DecimalString DecimalNat DecimalZ.
Import ListNotations.
Local Open Scope string_scope.
Local Open Scope list_scope.

(** ** Exceptions *)

Inductive exn : Type :=
| IndexError          (* [sizes[-1]], [inputs.pop(0)], [line[0]] *)
| UnboundLocalError.  (* a local read before it was assigned *)

Definition result (A : Type) : Type := (exn + A)%type.

Definition ret {A} (a : A) : result A := inr a.
Definition raise {A} (e : exn) : result A := inl e.
Definition bind {A B} (m : result A) (k : A -> result B) : result B :=
  match m with
  | inl e => inl e
  | inr a => k a
  end.

Notation "x <- m ;; k" := (bind m (fun x => k))
  (at level 61, m at next level, right associativity).

(** ** The Python built-ins the scripts use *)

Module Py.

Definition code (c : ascii) : nat := nat_of_ascii c.

(** [str.lower] on one character. *)
Definition lower_char (c : ascii) : ascii :=
  if (65 <=? code c)%nat && (code c <=? 90)%nat
  then ascii_of_nat (code c + 32) else c.

Fixpoint lower (s : string) : string :=
  match s with
  | EmptyString => EmptyString
  | String c s' => String (lower_char c) (lower s')
  end.

(** [s[:-n]] for a positive literal [n]. *)
Definition drop_last (n : nat) (s : string) : string :=
  substring 0 (String.length s - n) s.

(** [s[n:]]. *)
Definition drop_first (n : nat) (s : string) : string :=
  substring n (String.length s - n) s.

(** [s.endswith(suffix)]. *)
Definition endswith (s suffix : string) : bool :=
  (String.length suffix <=? String.length s)%nat
  && (substring (String.length s - String.length suffix)
                (String.length suffix) s =? suffix).

(** The last occurrence of the character [sep] in [s], as the text before
    it and the text after it. *)
Fixpoint rpartition (sep : ascii) (s : string) : option (string * string) :=
  match s with
  | EmptyString => None
  | String c s' =>
      match rpartition sep s' with
      | Some (before, after) => Some (String c before, after)
      | None => if Ascii.eqb c sep then Some (EmptyString, s') else None
      end
  end.

(** [s.rsplit(sep, 1)] for a one-character separator. *)
Definition rsplit1 (sep : ascii) (s : string) : list string :=
  match rpartition sep s with
  | Some (before, after) => [before; after]
  | None => [s]
  end.

Definition is_digit_char (c : ascii) : bool :=
  (48 <=? code c)%nat && (code c <=? 57)%nat.

Fixpoint all_chars (p : ascii -> bool) (s : string) : bool :=
  match s with
  | EmptyString => true
  | String c s' => p c && all_chars p s'
  end.

(** [s.isdigit()] on ASCII: at least one character, all of them digits. *)
Definition isdigit (s : string) : bool :=
  negb (s =? "") && all_chars is_digit_char s.

(** [str.isspace] on one character. *)
Definition is_space_char (c : ascii) : bool :=
  ((9 <=? code c)%nat && (code c <=? 13)%nat)
  || ((28 <=? code c)%nat && (code c <=? 32)%nat).

Fixpoint lstrip_by (p : ascii -> bool) (s : string) : string :=
  match s with
  | EmptyString => EmptyString
  | String c s' => if p c then lstrip_by p s' else s
  end.

Fixpoint rstrip_by (p : ascii -> bool) (s : string) : string :=
  match s with
  | EmptyString => EmptyString
  | String c s' =>
      match rstrip_by p s' with
      | EmptyString => if p c then EmptyString else String c EmptyString
      | rest => String c rest
      end
  end.

(** [s.strip()] and [s.strip(chars)]. *)
Definition strip_by (p : ascii -> bool) (s : string) : string :=
  rstrip_by p (lstrip_by p s).
Definition strip (s : string) : string := strip_by is_space_char s.
Definition strip_chars (chars : list ascii) (s : string) : string :=
  strip_by (fun c => existsb (Ascii.eqb c) chars) s.

(** The double-quote character. *)
Definition dquote : ascii := ascii_of_nat 34.

(** [sub in s]. *)
Definition contains (sub s : string) : bool :=
  match index 0 sub s with
  | Some _ => true
  | None => false
  end.

(** [s.split(sep)[0]]: the text before the first [sep], all of [s] when
    there is none. *)
Definition split_head (sep s : string) : string :=
  match index 0 sep s with
  | Some i => substring 0 i s
  | None => s
  end.

(** [f'{n}'] for an [int], and for a [len]. *)
Definition str_of_int (n : Z) : string := NilZero.string_of_int (Z.to_int n).
Definition str_of_len (n : nat) : string := NilZero.string_of_uint (Nat.to_uint n).

(** [x in l]. *)
Definition mem (x : string) (l : list string) : bool := existsb (String.eqb x) l.

(** [any(l)]. *)
Definition any (l : list bool) : bool := existsb (fun b => b) l.

(** [sorted(l)]: the stable ascending sort. *)
Section Sort.
Context {A : Type} (leb : A -> A -> bool).

Fixpoint insert (x : A) (l : list A) : list A :=
  match l with
  | [] => [x]
  | y :: l' => if leb x y then x :: l else y :: insert x l'
  end.

Fixpoint sorted (l : list A) : list A :=
  match l with
  | [] => []
  | x :: l' => insert x (sorted l')
  end.
End Sort.

Definition sorted_str : list string -> list string := sorted String.leb.
Definition sorted_int : list Z -> list Z := sorted Z.leb.

(** [l[-1]]. *)
Definition last_item {A} (l : list A) : result A :=
  match List.rev l with
  | [] => raise IndexError
  | x :: _ => ret x
  end.

(** [l[:-1]]. *)
Definition but_last {A} (l : list A) : list A := removelast l.

(** [posixpath.join(a, b)] and [posixpath.basename(p)], the instances of
    [os.path.join] and [os.path.basename] used to run the model. *)
Definition posix_join (a b : string) : string :=
  if prefix "/" b then b
  else if (a =? "") || endswith a "/" then (a ++ b)%string
  else (a ++ "/" ++ b)%string.

Definition posix_basename (p : string) : string :=
  match rpartition "/" p with
  | Some (_, after) => after
  | None => p
  end.

End Py.

(** ** Values shared by the two scripts *)

(** One entry of [inputs]: the dict with the keys ['path'] and
    ['maximum_size']. *)
Record source : Type := { path : string; maximum_size : Z }.

(** What the four [subprocess.check_output] calls of the [--changed] filter
    give back: [inl msg] when the call raised (with [str(e) = msg]), [inr]
    with its output otherwise, already cut by [splitlines()] for the three
    listing commands. *)
Record git_queries : Type := {
  rev_parse   : string + string;       (* git rev-parse --show-toplevel *)
  diff_names  : string + list string;  (* git diff --name-only *)
  diff_cached : string + list string;  (* git diff --name-only --cached *)
  ls_others   : string + list string   (* git ls-files --others --exclude-standard *)
}.

(** The lists [git_commit_and_push] fills while it reads the status. *)
Record status_lists : Type := {
  added_files : list string;
  modified_files : list string;
  deleted_files : list string;
  all_changed_paths : list string
}.

(** [l.pop(0)]. *)
Definition pop0 {A} (l : list A) : result (A * list A) :=
  match l with
  | [] => raise IndexError
  | x :: l' => ret (x, l')
  end.

(** ** batch_convert_to_ico_pro.py *)

Module IcoPro.
Section Script.

Variable path_join : string -> string -> string.  (* os.path.join *)
Variable normpath : string -> string.             (* os.path.normpath *)
Variable basename : string -> string.             (* os.path.basename *)
Variable today : string.                          (* time.strftime('%Y-%m-%d') *)
Variable input_folder : string.

Definition default_sizes : list Z := [16; 32; 48; 64; 256]%Z.

Definition ends_with_px (string : string) : bool :=
  if negb (Py.endswith string "px") then false else
  let parts := Py.rsplit1 "#" string in
  if negb (List.length parts =? 2)%nat then false else
  Py.isdigit (Py.drop_last 2 (nth 1 parts "")).

(** Lines 36-37 and 43-44; [listing] is [os.listdir(input_folder)] and
    [sizes] is already sorted (line 34). *)
Definition base_filenames (listing : list string) (sizes : list Z) : list string :=
  Py.sorted_str
    (filter (fun filename =>
               Py.endswith (Py.lower filename) ".svg"
               && negb (Py.any (map (fun s => ends_with_px (Py.lower (Py.drop_last 4 filename)))
                                    sizes)))
            listing).

Definition alt_filenames (listing : list string) (sizes : list Z) : list string :=
  Py.sorted_str
    (filter (fun filename =>
               Py.endswith (Py.lower filename) ".svg"
               && Py.any (map (fun s => ends_with_px (Py.lower (Py.drop_last 4 filename)))
                              (Py.but_last sizes)))
            listing).

(** [base[:-4] + f'-{size}px.svg'] (lines 72 and 93). *)
Definition variant_name (base : string) (size : Z) : string :=
  (Py.drop_last 4 base ++ "-" ++ Py.str_of_int size ++ "px.svg")%string.

(** Lines 59-61: the lines of one output added to [changed_paths]. *)
Fixpoint add_lines (repo_root : string) (lines changed_paths : list string) : list string :=
  match lines with
  | [] => changed_paths
  | line :: rest =>
      if negb (Py.strip line =? "")
      then add_lines repo_root rest
             (changed_paths ++ [normpath (path_join repo_root (Py.strip line))])
      else add_lines repo_root rest changed_paths
  end.

(** Lines 57-61: the three commands in turn, up to the first that raises. *)
Fixpoint collect_changed (repo_root : string) (outputs : list (string + list string))
         (changed_paths : list string) : string + list string :=
  match outputs with
  | [] => inr changed_paths
  | inl msg :: _ => inl msg
  | inr lines :: rest => collect_changed repo_root rest (add_lines repo_root lines changed_paths)
  end.

(** Lines 71-77: [true] when the loop appends [base] and breaks. *)
Fixpoint variant_changed (alt_filenames changed_paths : list string) (base : string)
         (sizes : list Z) : bool :=
  match sizes with
  | [] => false
  | size :: rest =>
      if Py.mem (variant_name base size) alt_filenames
      then if Py.mem (normpath (path_join input_folder (variant_name base size))) changed_paths
           then true
           else variant_changed alt_filenames changed_paths base rest
      else variant_changed alt_filenames changed_paths base rest
  end.

(** Lines 63-77. *)
Fixpoint filter_loop (alt_filenames changed_paths : list string) (sizes : list Z)
         (base_filenames filtered_base : list string) : list string :=
  match base_filenames with
  | [] => filtered_base
  | base :: rest =>
      if Py.mem (normpath (path_join input_folder base)) changed_paths
      then filter_loop alt_filenames changed_paths sizes rest (filtered_base ++ [base])
      else if variant_changed alt_filenames changed_paths base sizes
           then filter_loop alt_filenames changed_paths sizes rest (filtered_base ++ [base])
           else filter_loop alt_filenames changed_paths sizes rest filtered_base
  end.

(** Lines 50-83: the work list after the [only_changed] block, with the
    lines its handler prints. When [git rev-parse] raises, [repo_root] is
    still unassigned and the handler's first [print] raises in turn. *)
Definition changed_stage (only_changed : bool) (git : git_queries)
           (base_filenames alt_filenames : list string) (sizes : list Z)
  : result (list string * list string) :=
  if only_changed then
    match rev_parse git with
    | inl _ => raise UnboundLocalError
    | inr out =>
        let repo_root := Py.strip out in
        match collect_changed repo_root [diff_names git; diff_cached git; ls_others git] [] with
        | inl msg =>
            ret (base_filenames,
                 [("repo_root: " ++ repo_root)%string;
                  ("Warning: Failed to filter changed files: " ++ msg)%string])
        | inr changed_paths =>
            ret (filter_loop alt_filenames changed_paths sizes base_filenames [], [])
        end
    end
  else ret (base_filenames, []).

(** Lines 91-99. *)
Fixpoint alt_inputs (alt_filenames : list string) (base_filename : string)
         (sizes : list Z) (inputs : list source) : list source :=
  match sizes with
  | [] => inputs
  | size :: rest =>
      if negb (Py.mem (variant_name base_filename size) alt_filenames)
      then alt_inputs alt_filenames base_filename rest inputs
      else alt_inputs alt_filenames base_filename rest
             (inputs ++ [{| path := path_join input_folder (variant_name base_filename size);
                            maximum_size := size |}])
  end.

(** Lines 89-102. *)
Definition build_inputs (alt_filenames : list string) (base_filename : string)
           (sizes : list Z) : result (list source) :=
  let inputs := alt_inputs alt_filenames base_filename sizes [] in
  largest <- Py.last_item sizes ;;
  ret (inputs ++ [{| path := path_join input_folder base_filename;
                     maximum_size := largest |}]).

(** Lines 111-128: the [magick] calls of step 1, as (source path, size). *)
Fixpoint render_loop (input : source) (inputs : list source) (sizes : list Z)
  : result (list (string * Z)) :=
  match sizes with
  | [] => ret []
  | current_size :: rest =>
      st <- (if (current_size >? maximum_size input)%Z
             then pop0 inputs
             else ret (input, inputs)) ;;
      calls <- render_loop (fst st) (snd st) rest ;;
      ret ((path (fst st), current_size) :: calls)
  end.

(** Lines 89-128 for one base file. *)
Definition render_calls (alt_filenames : list string) (base_filename : string)
           (sizes : list Z) : result (list (string * Z)) :=
  inputs <- build_inputs alt_filenames base_filename sizes ;;
  st <- pop0 inputs ;;
  render_loop (fst st) (snd st) sizes.

(** Lines 86-152. *)
Fixpoint render_all (alt_filenames base_filenames : list string) (sizes : list Z)
  : result (list (string * list (string * Z))) :=
  match base_filenames with
  | [] => ret []
  | base_filename :: rest =>
      calls <- render_calls alt_filenames base_filename sizes ;;
      others <- render_all alt_filenames rest sizes ;;
      ret ((base_filename, calls) :: others)
  end.

Definition convert_svg_to_ico (listing : list string) (sizes : list Z)
           (only_changed : bool) (git : git_queries)
  : result (list (string * list (string * Z))) :=
  let sizes := Py.sorted_int sizes in
  let base := base_filenames listing sizes in
  let alt := alt_filenames listing sizes in
  work <- changed_stage only_changed git base alt sizes ;;
  render_all alt (fst work) sizes.

(** Lines 176-193. *)
Fixpoint read_status (lines : list string) (st : status_lists) : result status_lists :=
  match lines with
  | [] => ret st
  | line :: rest =>
      match line with
      | EmptyString => raise IndexError
      | String staged_status _ =>
          let path_info := Py.strip_chars [Py.dquote] (Py.strip (Py.drop_first 3 line)) in
          let path := if Ascii.eqb staged_status "R"
                      then Py.split_head " -> " path_info else path_info in
          let filename := basename path in
          let paths := all_changed_paths st ++ [path] in
          read_status rest
            (if Ascii.eqb staged_status "A" then
               {| added_files := added_files st ++ [filename];
                  modified_files := modified_files st;
                  deleted_files := deleted_files st;
                  all_changed_paths := paths |}
             else if Ascii.eqb staged_status "M" || Ascii.eqb staged_status "R" then
               {| added_files := added_files st;
                  modified_files := modified_files st ++ [filename];
                  deleted_files := deleted_files st;
                  all_changed_paths := paths |}
             else if Ascii.eqb staged_status "D" then
               {| added_files := added_files st;
                  modified_files := modified_files st;
                  deleted_files := deleted_files st ++ [filename];
                  all_changed_paths := paths |}
             else
               {| added_files := added_files st;
                  modified_files := modified_files st;
                  deleted_files := deleted_files st;
                  all_changed_paths := paths |})
      end
  end.

Definition is_icon (f : string) : bool := Py.endswith f ".svg" || Py.endswith f ".ico".

Definition nonempty {A} (l : list A) : bool := negb (List.length l =? 0)%nat.

(** Lines 195-218. *)
Definition message_of (st : status_lists) : string :=
  let added_icons := filter is_icon (added_files st) in
  let modified_icons := filter is_icon (modified_files st) in
  let deleted_icons := filter is_icon (deleted_files st) in
  if nonempty added_icons || nonempty modified_icons || nonempty deleted_icons then
    if (List.length added_icons =? 1)%nat && negb (nonempty modified_icons)
       && negb (nonempty deleted_icons)
    then ("feat: add " ++ hd "" added_icons)%string
    else if (List.length modified_icons =? 1)%nat && negb (nonempty added_icons)
            && negb (nonempty deleted_icons)
    then ("feat: update " ++ hd "" modified_icons)%string
    else
      let counts :=
        (if nonempty added_icons
         then [("add " ++ Py.str_of_len (List.length added_icons))%string] else [])
        ++ (if nonempty modified_icons
            then [("update " ++ Py.str_of_len (List.length modified_icons))%string] else [])
        ++ (if nonempty deleted_icons
            then [("remove " ++ Py.str_of_len (List.length deleted_icons))%string] else []) in
      ("feat: " ++ String.concat ", " counts ++ " icons")%string
  else if existsb (fun p => Py.endswith p ".md") (all_changed_paths st)
  then "docs: update documentation"
  else if existsb (fun p => Py.contains ".github" p) (all_changed_paths st)
  then "ci: update workflow"
  else ("chore: update files " ++ today)%string.

(** Lines 170-226: the message handed to [git commit], [None] when the
    status is empty; [status_lines] is [status.splitlines()]. *)
Definition git_commit_message (message : option string) (status_lines : list string)
  : result (option string) :=
  match status_lines with
  | [] => ret None
  | _ =>
      match message with
      | Some m => ret (Some m)
      | None =>
          st <- read_status status_lines
                  {| added_files := []; modified_files := [];
                     deleted_files := []; all_changed_paths := [] |} ;;
          ret (Some (message_of st))
      end
  end.

End Script.
End IcoPro.

(** ** batch_convert_to_ico.py *)

Module Ico.
Section Script.

Variable path_join : string -> string -> string.  (* os.path.join *)
Variable normpath : string -> string.             (* os.path.normpath *)
Variable basename : string -> string.             (* os.path.basename *)
Variable today : string.                          (* time.strftime('%Y-%m-%d') *)
Variable input_folder : string.

Definition default_sizes : list Z := [16; 20; 24; 32; 40; 48; 64; 256]%Z.

Definition ends_with_px (string : string) : bool :=
  if negb (Py.endswith string "px") then false else
  let parts := Py.rsplit1 "#" string in
  if negb (List.length parts =? 2)%nat then false else
  Py.isdigit (Py.drop_last 2 (nth 1 parts "")).

(** Lines 40-41 and 47-48; [listing] is [os.listdir(input_folder)] and
    [sizes] is already sorted (line 38). *)
Definition base_filenames (listing : list string) (sizes : list Z) : list string :=
  Py.sorted_str
    (filter (fun filename =>
               Py.endswith (Py.lower filename) ".svg"
               && negb (Py.any (map (fun s => ends_with_px (Py.lower (Py.drop_last 4 filename)))
                                    sizes)))
            listing).

Definition alt_filenames (listing : list string) (sizes : list Z) : list string :=
  Py.sorted_str
    (filter (fun filename =>
               Py.endswith (Py.lower filename) ".svg"
               && Py.any (map (fun s => ends_with_px (Py.lower (Py.drop_last 4 filename)))
                              (Py.but_last sizes)))
            listing).

(** [base[:-4] + f'-{size}px.svg'] (lines 76 and 97). *)
Definition variant_name (base : string) (size : Z) : string :=
  (Py.drop_last 4 base ++ "-" ++ Py.str_of_int size ++ "px.svg")%string.

(** Lines 63-65: the lines of one output added to [changed_paths]. *)
Fixpoint add_lines (repo_root : string) (lines changed_paths : list string) : list string :=
  match lines with
  | [] => changed_paths
  | line :: rest =>
      if negb (Py.strip line =? "")
      then add_lines repo_root rest
             (changed_paths ++ [normpath (path_join repo_root (Py.strip line))])
      else add_lines repo_root rest changed_paths
  end.

(** Lines 61-65: the three commands in turn, up to the first that raises. *)
Fixpoint collect_changed (repo_root : string) (outputs : list (string + list string))
         (changed_paths : list string) : string + list string :=
  match outputs with
  | [] => inr changed_paths
  | inl msg :: _ => inl msg
  | inr lines :: rest => collect_changed repo_root rest (add_lines repo_root lines changed_paths)
  end.

(** Lines 75-81: [true] when the loop appends [base] and breaks. *)
Fixpoint variant_changed (alt_filenames changed_paths : list string) (base : string)
         (sizes : list Z) : bool :=
  match sizes with
  | [] => false
  | size :: rest =>
      if Py.mem (variant_name base size) alt_filenames
      then if Py.mem (normpath (path_join input_folder (variant_name base size))) changed_paths
           then true
           else variant_changed alt_filenames changed_paths base rest
      else variant_changed alt_filenames changed_paths base rest
  end.

(** Lines 67-81. *)
Fixpoint filter_loop (alt_filenames changed_paths : list string) (sizes : list Z)
         (base_filenames filtered_base : list string) : list string :=
  match base_filenames with
  | [] => filtered_base
  | base :: rest =>
      if Py.mem (normpath (path_join input_folder base)) changed_paths
      then filter_loop alt_filenames changed_paths sizes rest (filtered_base ++ [base])
      else if variant_changed alt_filenames changed_paths base sizes
           then filter_loop alt_filenames changed_paths sizes rest (filtered_base ++ [base])
           else filter_loop alt_filenames changed_paths sizes rest filtered_base
  end.

(** Lines 54-87: the work list after the [only_changed] block, with the
    records its handler logs at the configured level [INFO]. When
    [git rev-parse] raises, [repo_root] is still unassigned and the
    f-string of the handler's [logging.debug] raises in turn. *)
Definition changed_stage (only_changed : bool) (git : git_queries)
           (base_filenames alt_filenames : list string) (sizes : list Z)
  : result (list string * list string) :=
  if only_changed then
    match rev_parse git with
    | inl _ => raise UnboundLocalError
    | inr out =>
        let repo_root := Py.strip out in
        match collect_changed repo_root [diff_names git; diff_cached git; ls_others git] [] with
        | inl msg =>
            ret (base_filenames,
                 [("Failed to filter changed files: " ++ msg)%string])
        | inr changed_paths =>
            ret (filter_loop alt_filenames changed_paths sizes base_filenames [], [])
        end
    end
  else ret (base_filenames, []).

(** Lines 95-103. *)
Fixpoint alt_inputs (alt_filenames : list string) (base_filename : string)
         (sizes : list Z) (inputs : list source) : list source :=
  match sizes with
  | [] => inputs
  | size :: rest =>
      if negb (Py.mem (variant_name base_filename size) alt_filenames)
      then alt_inputs alt_filenames base_filename rest inputs
      else alt_inputs alt_filenames base_filename rest
             (inputs ++ [{| path := path_join input_folder (variant_name base_filename size);
                            maximum_size := size |}])
  end.

(** Lines 93-106. *)
Definition build_inputs (alt_filenames : list string) (base_filename : string)
           (sizes : list Z) : result (list source) :=
  let inputs := alt_inputs alt_filenames base_filename sizes [] in
  largest <- Py.last_item sizes ;;
  ret (inputs ++ [{| path := path_join input_folder base_filename;
                     maximum_size := largest |}]).

(** Lines 115-132: the [magick] calls of step 1, as (source path, size). *)
Fixpoint render_loop (input : source) (inputs : list source) (sizes : list Z)
  : result (list (string * Z)) :=
  match sizes with
  | [] => ret []
  | current_size :: rest =>
      st <- (if (current_size >? maximum_size input)%Z
             then pop0 inputs
             else ret (input, inputs)) ;;
      calls <- render_loop (fst st) (snd st) rest ;;
      ret ((path (fst st), current_size) :: calls)
  end.

(** Lines 93-132 for one base file. *)
Definition render_calls (alt_filenames : list string) (base_filename : string)
           (sizes : list Z) : result (list (string * Z)) :=
  inputs <- build_inputs alt_filenames base_filename sizes ;;
  st <- pop0 inputs ;;
  render_loop (fst st) (snd st) sizes.

(** Lines 90-156. *)
Fixpoint render_all (alt_filenames base_filenames : list string) (sizes : list Z)
  : result (list (string * list (string * Z))) :=
  match base_filenames with
  | [] => ret []
  | base_filename :: rest =>
      calls <- render_calls alt_filenames base_filename sizes ;;
      others <- render_all alt_filenames rest sizes ;;
      ret ((base_filename, calls) :: others)
  end.

Definition convert_svg_to_ico (listing : list string) (sizes : list Z)
           (only_changed : bool) (git : git_queries)
  : result (list (string * list (string * Z))) :=
  let sizes := Py.sorted_int sizes in
  let base := base_filenames listing sizes in
  let alt := alt_filenames listing sizes in
  work <- changed_stage only_changed git base alt sizes ;;
  render_all alt (fst work) sizes.

(** Lines 180-197. *)
Fixpoint read_status (lines : list string) (st : status_lists) : result status_lists :=
  match lines with
  | [] => ret st
  | line :: rest =>
      match line with
      | EmptyString => raise IndexError
      | String staged_status _ =>
          let path_info := Py.strip_chars [Py.dquote] (Py.strip (Py.drop_first 3 line)) in
          let path := if Ascii.eqb staged_status "R"
                      then Py.split_head " -> " path_info else path_info in
          let filename := basename path in
          let paths := all_changed_paths st ++ [path] in
          read_status rest
            (if Ascii.eqb staged_status "A" then
               {| added_files := added_files st ++ [filename];
                  modified_files := modified_files st;
                  deleted_files := deleted_files st;
                  all_changed_paths := paths |}
             else if Ascii.eqb staged_status "M" || Ascii.eqb staged_status "R" then
               {| added_files := added_files st;
                  modified_files := modified_files st ++ [filename];
                  deleted_files := deleted_files st;
                  all_changed_paths := paths |}
             else if Ascii.eqb staged_status "D" then
               {| added_files := added_files st;
                  modified_files := modified_files st;
                  deleted_files := deleted_files st ++ [filename];
                  all_changed_paths := paths |}
             else
               {| added_files := added_files st;
                  modified_files := modified_files st;
                  deleted_files := deleted_files st;
                  all_changed_paths := paths |})
      end
  end.

Definition is_icon (f : string) : bool := Py.endswith f ".svg" || Py.endswith f ".ico".

Definition nonempty {A} (l : list A) : bool := negb (List.length l =? 0)%nat.

(** Lines 199-222. *)
Definition message_of (st : status_lists) : string :=
  let added_icons := filter is_icon (added_files st) in
  let modified_icons := filter is_icon (modified_files st) in
  let deleted_icons := filter is_icon (deleted_files st) in
  if nonempty added_icons || nonempty modified_icons || nonempty deleted_icons then
    if (List.length added_icons =? 1)%nat && negb (nonempty modified_icons)
       && negb (nonempty deleted_icons)
    then ("feat: add " ++ hd "" added_icons)%string
    else if (List.length modified_icons =? 1)%nat && negb (nonempty added_icons)
            && negb (nonempty deleted_icons)
    then ("feat: update " ++ hd "" modified_icons)%string
    else
      let counts :=
        (if nonempty added_icons
         then [("add " ++ Py.str_of_len (List.length added_icons))%string] else [])
        ++ (if nonempty modified_icons
            then [("update " ++ Py.str_of_len (List.length modified_icons))%string] else [])
        ++ (if nonempty deleted_icons
            then [("remove " ++ Py.str_of_len (List.length deleted_icons))%string] else []) in
      ("feat: " ++ String.concat ", " counts ++ " icons")%string
  else if existsb (fun p => Py.endswith p ".md") (all_changed_paths st)
  then "docs: update documentation"
  else if existsb (fun p => Py.contains ".github" p) (all_changed_paths st)
  then "ci: update workflow"
  else ("chore: update files " ++ today)%string.

(** Lines 174-230: the message handed to [git commit], [None] when the
    status is empty; [status_lines] is [status.splitlines()]. *)
Definition git_commit_message (message : option string) (status_lines : list string)
  : result (option string) :=
  match status_lines with
  | [] => ret None
  | _ =>
      match message with
      | Some m => ret (Some m)
      | None =>
          st <- read_status status_lines
                  {| added_files := []; modified_files := [];
                     deleted_files := []; all_changed_paths := [] |} ;;
          ret (Some (message_of st))
      end
  end.

End Script.
End Ico.

(** ** Notions used in the statements *)

(** A size sequence without repeats, smallest first. *)
Fixpoint strictly_increasing (l : list Z) : bool :=
  match l with
  | [] => true
  | x :: l' =>
      match l' with
      | [] => true
      | y :: _ => (x <? y)%Z && strictly_increasing l'
      end
  end.

(** A size sequence, smallest first, repeats allowed. *)
Fixpoint ascending (l : list Z) : bool :=
  match l with
  | [] => true
  | x :: l' =>
      match l' with
      | [] => true
      | y :: _ => (x <=? y)%Z && ascending l'
      end
  end.

(** The order a boolean comparison decides; for [str], the lexicographic
    order of the code points. *)
Definition le_of {A : Type} (leb : A -> A -> bool) (x y : A) : Prop := leb x y = true.
Definition str_le : string -> string -> Prop := le_of String.leb.

(** [os.path.normpath(os.path.join(input_folder, name))] (lines 65, 74). *)
Definition in_folder (path_join : string -> string -> string) (normpath : string -> string)
           (input_folder name : string) : string :=
  normpath (path_join input_folder name).

(** The entry of [inputs] for the alternative of [base] at [size], and the
    entries lines 91-99 append for [sizes], in closed form. *)
Definition alt_source (path_join : string -> string -> string) (input_folder base : string)
           (size : Z) : source :=
  {| path := path_join input_folder (IcoPro.variant_name base size); maximum_size := size |}.

Definition alt_sources (path_join : string -> string -> string) (input_folder : string)
           (alt_filenames : list string) (base : string) (sizes : list Z) : list source :=
  flat_map (fun size =>
              if Py.mem (IcoPro.variant_name base size) alt_filenames
              then [alt_source path_join input_folder base size] else [])
           sizes.

(** Lines 109-128: the first [pop] and the loop. *)
Definition pop_and_render (inputs : list source) (sizes : list Z) : result (list (string * Z)) :=
  st <- pop0 inputs ;; IcoPro.render_loop (fst st) (snd st) sizes.

(** The first entry of [inputs] whose bound admits [size]. *)
Definition first_fit (inputs : list source) (size : Z) : option source :=
  find (fun c => (size <=? maximum_size c)%Z) inputs.

Definition fit_path (inputs : list source) (size : Z) : string :=
  match first_fit inputs size with
  | Some c => path c
  | None => EmptyString
  end.

(** The render plan read off the [magick] calls of one base file: the
    consecutive calls on one source path make one entry, with the sizes it
    services. *)
Fixpoint group_calls (calls : list (string * Z)) : list (string * list Z) :=
  match calls with
  | [] => []
  | (p, s) :: rest =>
      match group_calls rest with
      | (p', ss) :: groups =>
          if String.eqb p p' then (p, s :: ss) :: groups
          else (p, [s]) :: (p', ss) :: groups
      | [] => [(p, [s])]
      end
  end.

(** One clause of the counting message: nothing for a count of zero. *)
Definition count_clause (verb : string) (n : nat) : list string :=
  if (n =? 0)%nat then [] else [(verb ++ " " ++ Py.str_of_len n)%string].

(** The work list of [changed_stage], without what the handler prints. *)
Definition worklist (r : result (list string * list string)) : result (list string) :=
  w <- r ;; ret (fst w).

(** ** The rest of the scripts: built-ins *)

Module PyMain.

(** [l.index(x)] when [x] is in [l] (the length of [l] otherwise, where
    Python raises [ValueError]). *)
Fixpoint index_of (x : string) (l : list string) : nat :=
  match l with
  | [] => 0
  | y :: l' => if String.eqb x y then 0 else S (index_of x l')
  end.

(** [s.startswith(p)]. *)
Definition startswith (s p : string) : bool := prefix p s.

(** [s.replace(old, new, 1)] for a non-empty [old]. *)
Definition replace_first (old new s : string) : string :=
  match index 0 old s with
  | Some i => (substring 0 i s ++ new ++ Py.drop_first (i + String.length old) s)%string
  | None => s
  end.

(** [posixpath.splitext(p)[0]]: the text before the last dot of the last
    component, unless only dots come before it there. *)
Definition posix_splitext_root (p : string) : string :=
  let name := match Py.rpartition "/" p with
              | Some (_, after) => after
              | None => p
              end in
  match Py.rpartition "." name with
  | Some (before, after) =>
      if Py.all_chars (fun c => Ascii.eqb c ".") before then p
      else Py.drop_last (S (String.length after)) p
  | None => p
  end.

End PyMain.

(** ** The rest of the scripts: values *)

(** The outcome of the start of [__main__]: [sys.exit(code)] or going on. *)
Inductive started (A : Type) : Type :=
| Exit (code : nat)
| Started (a : A).
Arguments Exit {A} code.
Arguments Started {A} a.

(** What the three [input()] calls of [--ask] return, the third after
    [map(int, ....split())]. *)
Record prompts : Type := {
  input_folder_answer : string;
  output_folder_answer : string;
  sizes_answer : list Z
}.

(** One call [convert_svg_to_ico(input_folder, output_folder, tuple(sizes),
    only_changed=only_changed)] of the loop of [__main__]. *)
Record call : Type := {
  call_input_folder : string;
  call_output_folder : string;
  call_sizes : list Z;
  call_only_changed : bool
}.

(** What a [subprocess.run(..., check=True)] does. *)
Inductive run : Type :=
| Returned      (* exit status 0 *)
| Failed        (* another exit status: [CalledProcessError] *)
| NotStarted.   (* the program could not be run: [FileNotFoundError], ... *)

(** What [os.chdir(repo_path)] and the sub-processes of one
    [git_commit_and_push] do. [git status --porcelain] is run without
    [check=True]: [Some] of the lines of its output whatever its exit
    status, [None] when it could not be run. *)
Record git_sync : Type := {
  chdir_ok : bool;
  add_run : run;
  status_run : option (list string);
  commit_run : run;
  push_run : run
}.

(** How one [git_commit_and_push] ends, by the last line it prints. *)
Inductive sync_outcome : Type :=
| Pushed (message : string)   (* Successfully pushed changes to repository. *)
| NothingToCommit             (* No changes to commit. *)
| GitError                    (* Git Error: ... *)
| OtherError.                 (* An error occurred during Git operations: ... *)

Record sync_result : Type := {
  cwd_after : string;               (* the working directory of the process *)
  commands : list (list string);    (* the git commands run, in order *)
  outcome : sync_outcome
}.

(** [x if x else default] for a string that may be [None]. *)
Definition truthy (s : option string) : bool :=
  match s with
  | Some s => negb (s =? "")
  | None => false
  end.

(** ** batch_convert_to_ico_pro.py: steps 1 and 2, the git sync *)

Module IcoProRun.
Section Run.

Variable path_join : string -> string -> string.       (* os.path.join *)
Variable splitext_root : string -> string.             (* os.path.splitext(p)[0] *)
Variable basename : string -> string.                  (* os.path.basename *)
Variable today : string.                               (* time.strftime('%Y-%m-%d') *)
Variable input_folder : string.
Variable output_folder : string.
Variable temp_pngs : string.  (* os.path.dirname(os.path.abspath(__file__))+"/temp_pngs" *)

(** Line 106. *)
Definition throughput_paths (base_filename : string) (sizes : list Z) : list string :=
  map (fun size_index =>
         path_join temp_pngs
           (Py.drop_last 4 base_filename ++ "-" ++ Py.str_of_len size_index ++ ".png")%string)
      (seq 0 (List.length sizes)).

(** Lines 122-128: the arguments of one [magick] call of step 1. *)
Definition resize_command (input_path : string) (current_size : Z) (throughput_path : string)
  : list string :=
  ["magick"; "-background"; "transparent"; input_path; "-resize";
   (Py.str_of_int current_size ++ "x" ++ Py.str_of_int current_size)%string;
   throughput_path].

(** Lines 111-132, over the indices [range(len(sizes))]. *)
Fixpoint step1_loop (sizes : list Z) (throughput_paths : list string)
         (input : source) (inputs : list source) (indices : list nat)
  : result (list (list string)) :=
  match indices with
  | [] => ret []
  | size_index :: rest =>
      st <- (if (nth size_index sizes 0 >? maximum_size input)%Z
             then pop0 inputs
             else ret (input, inputs)) ;;
      let current_size := nth size_index sizes 0%Z in
      let throughput_path := nth size_index throughput_paths "" in
      commands <- step1_loop sizes throughput_paths (fst st) (snd st) rest ;;
      ret (resize_command (path (fst st)) current_size throughput_path :: commands)
  end.

(** Lines 137-149: the arguments of the [magick] call of step 2. *)
Definition pack_command (base_filename : string) (throughput_paths : list string)
  : list string :=
  ["magick"; "-background"; "transparent"]
  ++ throughput_paths
  ++ [path_join output_folder (splitext_root base_filename ++ ".ico")%string].

(** Lines 89-149 for one base file: the [magick] calls of step 1, then the
    one of step 2. *)
Definition convert_one (alt_filenames : list string) (base_filename : string)
           (sizes : list Z) : result (list (list string) * list string) :=
  inputs <- IcoPro.build_inputs path_join input_folder alt_filenames base_filename sizes ;;
  let throughput_paths := throughput_paths base_filename sizes in
  st <- pop0 inputs ;;
  commands <- step1_loop sizes throughput_paths (fst st) (snd st)
                (seq 0 (List.length sizes)) ;;
  ret (commands, pack_command base_filename throughput_paths).

(** How a failed [subprocess.run(..., check=True)] is reported. *)
Definition failure_of (r : run) : sync_outcome :=
  match r with
  | Failed => GitError
  | _ => OtherError
  end.

(** Lines 156-232. The working directory is the path given to [os.chdir]. *)
Definition git_commit_and_push (repo_path : string) (message : option string)
           (env : git_sync) (cwd : string) : sync_result :=
  let original_cwd := cwd in
  let add := ["git"; "add"; "."] in
  let status := ["git"; "status"; "--porcelain"] in
  if negb (chdir_ok env) then
    {| cwd_after := cwd; commands := []; outcome := OtherError |}
  else
    match add_run env with
    | Returned =>
        match status_run env with
        | None =>
            {| cwd_after := repo_path; commands := [add; status]; outcome := OtherError |}
        | Some status_lines =>
            match IcoPro.git_commit_message basename today message status_lines with
            | inl _ =>
                {| cwd_after := repo_path; commands := [add; status];
                   outcome := OtherError |}
            | inr None =>
                {| cwd_after := original_cwd; commands := [add; status];
                   outcome := NothingToCommit |}
            | inr (Some message) =>
                let commit := ["git"; "commit"; "-m"; message] in
                match commit_run env with
                | Returned =>
                    match push_run env with
                    | Returned =>
                        {| cwd_after := original_cwd;
                           commands := [add; status; commit; ["git"; "push"]];
                           outcome := Pushed message |}
                    | failed =>
                        {| cwd_after := repo_path;
                           commands := [add; status; commit; ["git"; "push"]];
                           outcome := failure_of failed |}
                    end
                | failed =>
                    {| cwd_after := repo_path; commands := [add; status; commit];
                       outcome := failure_of failed |}
                end
            end
        end
    | failed =>
        {| cwd_after := repo_path; commands := [add]; outcome := failure_of failed |}
    end.

End Run.
End IcoProRun.

(** ** batch_convert_to_ico_pro.py: [__main__] *)

Module IcoProMain.
Section Main.

Variable path_join : string -> string -> string.  (* os.path.join *)
Variable normpath : string -> string.             (* os.path.normpath *)
Variable isabs : string -> bool.                  (* os.path.isabs *)
Variable isdir : string -> bool.                  (* os.path.isdir *)
Variable script_dir : string.          (* os.path.dirname(os.path.abspath(__file__)) *)
Variable listdir : string -> list string.         (* os.listdir *)
Variable git_of : string -> git_queries.          (* the git answers in a folder *)

(** Lines 239-246. *)
Definition strict_folder (argv : list string) : started (option string) :=
  if Py.mem "--strict" argv then
    match nth_error argv (PyMain.index_of "--strict" argv + 1) with
    | Some folder => Started (Some folder)
    | None => Exit 1
    end
  else Started None.

(** Lines 277-281. *)
Fixpoint scan (exclusion_list items input_folders : list string) : list string :=
  match items with
  | [] => input_folders
  | item :: rest =>
      let item_path := path_join script_dir item in
      if isdir item_path then
        if String.eqb item "svg"
           || (PyMain.startswith item "svg_" && negb (Py.mem item exclusion_list))
        then scan exclusion_list rest (input_folders ++ [item_path])
        else scan exclusion_list rest input_folders
      else scan exclusion_list rest input_folders
  end.

(** Lines 262-284. *)
Definition select_folders (strict_folder input_folder_arg : option string)
  : started (list string) :=
  if truthy strict_folder then
    let target_path := match strict_folder with Some f => f | None => "" end in
    let target_path := if negb (isabs target_path)
                       then path_join script_dir target_path else target_path in
    if isdir target_path then Started [target_path] else Exit 1
  else if truthy input_folder_arg then
    Started [match input_folder_arg with Some f => f | None => "" end]
  else
    let input_folders := scan ["svg_original"] (Py.sorted_str (listdir script_dir)) [] in
    Started (match input_folders with
             | [] => [path_join script_dir "svg"]
             | _ => input_folders
             end).

(** [os.path.join(script_dir, "..", "Folder-Ico", "ico")], joined from the
    left. *)
Definition default_output_folder : string :=
  path_join (path_join (path_join script_dir "..") "Folder-Ico") "ico".

(** Lines 236-295: the calls of [convert_svg_to_ico] the loop makes. *)
Definition main_calls (argv : list string) (answers : prompts) : started (list call) :=
  let ask := Py.mem "--ask" argv in
  let only_changed := Py.mem "--changed" argv in
  match strict_folder argv with
  | Exit code => Exit code
  | Started strict_folder =>
      let input_folder_arg := if ask then Some (input_folder_answer answers) else None in
      let output_folder := if ask then Some (output_folder_answer answers) else None in
      let sizes := if ask then Some (filter (fun s => (0 <? s)%Z) (sizes_answer answers))
                   else None in
      match select_folders strict_folder input_folder_arg with
      | Exit code => Exit code
      | Started input_folders =>
          let output_folder := if negb (truthy output_folder) then default_output_folder
                               else output_folder_answer answers in
          let sizes := match sizes with
                       | Some (s :: l) => s :: l
                       | _ => [16; 32; 48; 64; 256]%Z
                       end in
          Started (map (fun input_folder =>
                          {| call_input_folder := input_folder;
                             call_output_folder := output_folder;
                             call_sizes := sizes;
                             call_only_changed := only_changed |})
                       input_folders)
      end
  end.

(** Lines 290-297: every call in its own [try], an exception of one being
    printed as a warning before the next. *)
Definition run_calls (calls : list call)
  : list (string * result (list (string * list (string * Z)))) :=
  map (fun c =>
         (call_input_folder c,
          IcoPro.convert_svg_to_ico path_join normpath (call_input_folder c)
            (listdir (call_input_folder c)) (call_sizes c) (call_only_changed c)
            (git_of (call_input_folder c))))
      calls.

End Main.
End IcoProMain.

(** ** batch_convert_to_ico.py: [__main__] *)

Module IcoMain.
Section Main.

Variable path_join : string -> string -> string.  (* os.path.join *)
Variable normpath : string -> string.             (* os.path.normpath *)
Variable basename : string -> string.             (* os.path.basename *)
Variable isdir : string -> bool.                  (* os.path.isdir *)
Variable script_dir : string.          (* os.path.dirname(os.path.abspath(__file__)) *)
Variable listdir : string -> list string.         (* os.listdir *)
Variable git_of : string -> git_queries.          (* the git answers in a folder *)

(** Lines 262-266. *)
Fixpoint scan (exclusion_list items input_folders : list string) : list string :=
  match items with
  | [] => input_folders
  | item :: rest =>
      let item_path := path_join script_dir item in
      if isdir item_path then
        if String.eqb item "svg"
           || (PyMain.startswith item "svg_" && negb (Py.mem item exclusion_list))
        then scan exclusion_list rest (input_folders ++ [item_path])
        else scan exclusion_list rest input_folders
      else scan exclusion_list rest input_folders
  end.

(** Lines 257-269. *)
Definition select_folders (input_folder_arg : option string) : list string :=
  if truthy input_folder_arg then
    [match input_folder_arg with Some f => f | None => "" end]
  else
    let input_folders := scan [] (Py.sorted_str (listdir script_dir)) [] in
    match input_folders with
    | [] => [path_join script_dir "svg"]
    | _ => input_folders
    end.

Definition default_output_folder : string :=
  path_join (path_join (path_join script_dir "..") "Folder-Ico") "ico".

(** Lines 280-286: the output folder of one input folder. *)
Definition current_output_folder (input_folder_arg : option string) (output_folder : string)
           (input_folder : string) : string :=
  match input_folder_arg with
  | None =>
      let folder_name := basename input_folder in
      let target_dir_name := PyMain.replace_first "svg" "ico" folder_name in
      path_join (path_join (path_join script_dir "..") "Folder-Ico") target_dir_name
  | Some _ => output_folder
  end.

(** Lines 238-289: the calls of [convert_svg_to_ico] the loop makes. *)
Definition main_calls (argv : list string) (answers : prompts) : list call :=
  let ask := Py.mem "--ask" argv in
  let only_changed := Py.mem "--changed" argv in
  let input_folder_arg := if ask then Some (input_folder_answer answers) else None in
  let output_folder := if ask then Some (output_folder_answer answers) else None in
  let sizes := if ask then Some (filter (fun s => (0 <? s)%Z) (sizes_answer answers))
               else None in
  let input_folders := select_folders input_folder_arg in
  let output_folder := if negb (truthy output_folder) then default_output_folder
                       else output_folder_answer answers in
  let sizes := match sizes with
               | Some (s :: l) => s :: l
               | _ => [16; 20; 24; 32; 40; 48; 64; 256]%Z
               end in
  map (fun input_folder =>
         {| call_input_folder := input_folder;
            call_output_folder :=
              current_output_folder input_folder_arg output_folder input_folder;
            call_sizes := sizes;
            call_only_changed := only_changed |})
      input_folders.

(** Lines 274-291. *)
Definition run_calls (calls : list call)
  : list (string * result (list (string * list (string * Z)))) :=
  map (fun c =>
         (call_input_folder c,
          Ico.convert_svg_to_ico path_join normpath (call_input_folder c)
            (listdir (call_input_folder c)) (call_sizes c) (call_only_changed c)
            (git_of (call_input_folder c))))
      calls.

End Main.
End IcoMain.

(** ** Notions used in the statements about [__main__] *)

(** The names the scan of [__main__] looks for: [svg], or a name that
    starts with [svg_]. *)
Definition is_icon_set (item : string) : bool :=
  String.eqb item "svg" || PyMain.startswith item "svg_".

(** A list, or the one default when it is empty. *)
Definition or_default {A : Type} (default : A) (l : list A) : list A :=
  match l with
  | [] => [default]
  | _ => l
  end.

(** [os.path.join(script_dir, "..", "Folder-Ico", name)]. *)
Definition folder_ico (path_join : string -> string -> string) (script_dir name : string)
  : string :=
  path_join (path_join (path_join script_dir "..") "Folder-Ico") name.


(** ** Notions used in the statements about overrides *)

(** The name the docstring gives the file that stands in for [base] up to
    [size]: the stem of [base], [-], the size, [px.svg]. *)
Definition override_name (base : string) (size : Z) : string :=
  (Py.drop_last 4 base ++ "-" ++ Py.str_of_int size ++ "px.svg")%string.

(** A string of ASCII characters only. *)
Definition is_ascii (s : string) : bool :=
  Py.all_chars (fun c => (Py.code c <? 128)%nat) s.

(** A non-empty string of the characters 0 to 9. *)
Definition decimal_digits (s : string) : bool :=
  negb (s =? "") && Py.all_chars (fun c => (48 <=? Py.code c)%nat && (Py.code c <=? 57)%nat) s.

(** ** batch_convert_to_ico_pro.py: [__main__], from the answers as read *)



Module IcoProAsk.
Section Main.

Variable path_join : string -> string -> string.  (* os.path.join *)
Variable isabs : string -> bool.                  (* os.path.isabs *)
Variable isdir : string -> bool.                  (* os.path.isdir *)
Variable script_dir : string.          (* os.path.dirname(os.path.abspath(__file__)) *)
Variable listdir : string -> list string.         (* os.listdir *)


End Main.
End IcoProAsk.

(** ** The built-ins on examples *)

Example py_lower : Py.lower "Logo-16PX.SVG" = "logo-16px.svg".
Proof. reflexivity. Qed.

Example py_rsplit1 : Py.rsplit1 "#" "a#b#16px" = ["a#b"; "16px"].
Proof. reflexivity. Qed.

Example py_rsplit0 : Py.rsplit1 "#" "logo-16px" = ["logo-16px"].
Proof. reflexivity. Qed.

Example py_strip : Py.strip "  a b  " = "a b".
Proof. reflexivity. Qed.

Example py_strq :
  Py.strip_chars [Py.dquote] (String Py.dquote ("a b" ++ String Py.dquote "")%string) = "a b".
Proof. reflexivity. Qed.

Example py_str1 :
  Py.str_of_int 256 = "256" /\ Py.str_of_int 0 = "0" /\ Py.str_of_int (-5) = "-5".
Proof. repeat split; reflexivity. Qed.

Example py_str2 : Py.str_of_len 0 = "0" /\ Py.str_of_len 12 = "12".
Proof. repeat split; reflexivity. Qed.

Example py_sorted :
  Py.sorted_str ["logo.svg"; "logo-16px.svg"; "icon.svg"; "Zed.svg"]
  = ["Zed.svg"; "icon.svg"; "logo-16px.svg"; "logo.svg"].
Proof. reflexivity. Qed.

Example py_split :
  Py.split_head " -> " "a.svg -> b.svg" = "a.svg"
  /\ Py.split_head " -> " "a.svg" = "a.svg".
Proof. repeat split; reflexivity. Qed.

Example py_ends :
  Py.endswith "logo-16px" "px" = true /\ Py.endswith "x" "px" = false
  /\ Py.drop_last 4 "a.svg" = "a" /\ Py.drop_last 4 "svg" = ""
  /\ Py.drop_first 3 "A  x.svg" = "x.svg" /\ Py.drop_first 3 "A" = "".
Proof. repeat split; reflexivity. Qed.

Example py_join :
  Py.posix_join "svg" "a.svg" = "svg/a.svg" /\ Py.posix_basename "x/y/a.svg" = "a.svg".
Proof. repeat split; reflexivity. Qed.

Example group_calls_example :
  group_calls [("b-32px.svg", 16); ("b-32px.svg", 32); ("b-64px.svg", 48);
               ("b-64px.svg", 64); ("b.svg", 256)]%Z
  = [("b-32px.svg", [16; 32]); ("b-64px.svg", [48; 64]); ("b.svg", [256])]%Z.
Proof. reflexivity. Qed.

(** ** [sorted] *)

Section SortFacts.
Context {A : Type} (leb : A -> A -> bool).
Hypothesis leb_total : forall x y, leb x y = true \/ leb y x = true.

Lemma insert_perm (x : A) (l : list A) : Permutation (Py.insert leb x l) (x :: l).
Proof.
  induction l as [|y l IH]; simpl; [reflexivity|].
  destruct (leb x y); [reflexivity|].
  rewrite IH. apply perm_swap.
Qed.

Lemma sorted_perm (l : list A) : Permutation (Py.sorted leb l) l.
Proof.
  induction l as [|x l IH]; simpl; [constructor|].
  rewrite insert_perm. now constructor.
Qed.

Lemma sorted_In (l : list A) (x : A) : In x (Py.sorted leb l) <-> In x l.
Proof.
  split; apply Permutation_in; [|symmetry]; apply sorted_perm.
Qed.

Lemma insert_Sorted (x : A) (l : list A) :
  Sorted (le_of leb) l -> Sorted (le_of leb) (Py.insert leb x l).
Proof.
  induction l as [|y l IH]; simpl; intros Hs.
  - repeat constructor.
  - destruct (leb x y) eqn:Hxy.
    + constructor; [assumption|]. constructor. exact Hxy.
    + inversion Hs as [|? ? Hl Hhd]; subst.
      constructor; [now apply IH|].
      assert (Hyx : le_of leb y x)
        by (unfold le_of; destruct (leb_total x y); [congruence|assumption]).
      destruct l as [|z l]; simpl.
      * now constructor.
      * destruct (leb x z); constructor; [assumption|now inversion Hhd].
Qed.

Lemma sorted_Sorted (l : list A) : Sorted (le_of leb) (Py.sorted leb l).
Proof.
  induction l as [|x l IH]; simpl; [constructor|now apply insert_Sorted].
Qed.
End SortFacts.

Lemma sorted_str_Sorted (l : list string) : Sorted str_le (Py.sorted_str l).
Proof. apply (sorted_Sorted String.leb), String.leb_total. Qed.

Lemma sorted_str_In (l : list string) (x : string) : In x (Py.sorted_str l) <-> In x l.
Proof. apply sorted_In. Qed.

Lemma sorted_int_increasing (l : list Z) :
  strictly_increasing l = true -> Py.sorted_int l = l.
Proof.
  unfold Py.sorted_int.
  induction l as [|x l IH]; simpl; [reflexivity|].
  destruct l as [|y l]; [reflexivity|].
  intros H. apply andb_prop in H as [Hxy Hl].
  rewrite (IH Hl). simpl.
  apply Z.ltb_lt in Hxy.
  destruct (Z.leb_spec x y); [reflexivity|lia].
Qed.

Lemma sorted_nil {A : Type} (leb : A -> A -> bool) (l : list A) :
  Py.sorted leb l = [] -> l = [].
Proof.
  intros H. apply Permutation_nil. rewrite <- H. apply sorted_perm.
Qed.

Lemma sorted_int_ascending (l : list Z) : ascending (Py.sorted_int l) = true.
Proof.
  assert (H : Sorted (le_of Z.leb) (Py.sorted_int l)).
  { apply sorted_Sorted. intros x y.
    destruct (Z.leb_spec x y); [now left|right; apply Z.leb_le; lia]. }
  induction H as [|x l' Hl IH Hhd]; [reflexivity|].
  simpl. destruct l' as [|y l']; [reflexivity|].
  inversion Hhd as [|? ? Hxy]; subst. unfold le_of in Hxy. now rewrite Hxy, IH.
Qed.

(** ** Strings and lists *)

Lemma append_cancel_l (a b c : string) : (a ++ b = a ++ c)%string -> b = c.
Proof.
  induction a as [|x a IH]; simpl; [auto|]. intros [= H]. auto.
Qed.

Lemma length_append (a b : string) :
  String.length (a ++ b) = (String.length a + String.length b)%nat.
Proof.
  induction a as [|x a IH]; simpl; [reflexivity|]. now rewrite IH.
Qed.

Lemma append_cancel_r (s b c : string) : (b ++ s = c ++ s)%string -> b = c.
Proof.
  revert c. induction b as [|x b IH]; intros [|y c] H; simpl in H.
  - reflexivity.
  - apply (f_equal String.length) in H. simpl in H. rewrite length_append in H. lia.
  - apply (f_equal String.length) in H. simpl in H. rewrite length_append in H. lia.
  - injection H as -> H. f_equal. now apply IH.
Qed.

Lemma append_assoc (a b c : string) : ((a ++ b) ++ c = a ++ (b ++ c))%string.
Proof.
  induction a as [|x a IH]; simpl; [reflexivity|]. now rewrite IH.
Qed.

Lemma append_nil_r (s : string) : (s ++ "")%string = s.
Proof.
  induction s as [|c s IH]; simpl; [reflexivity|]. now rewrite IH.
Qed.

Lemma substring_0_append (a b : string) (k : nat) :
  substring 0 (String.length a + k) (a ++ b) = (a ++ substring 0 k b)%string.
Proof.
  induction a as [|c a IH]; simpl; [reflexivity|]. now rewrite IH.
Qed.

Lemma substring_all (s : string) : substring 0 (String.length s) s = s.
Proof.
  induction s as [|c s IH]; simpl; [reflexivity|]. now rewrite IH.
Qed.

Lemma substring_skip (a b : string) (n k : nat) :
  substring (String.length a + n) k (a ++ b) = substring n k b.
Proof.
  induction a as [|c a IH]; simpl; [reflexivity|]. exact IH.
Qed.

Lemma substring_split (s : string) (n : nat) :
  (n <= String.length s)%nat ->
  s = (substring 0 n s ++ substring n (String.length s - n) s)%string.
Proof.
  revert n. induction s as [|c s IH]; intros n Hn; simpl in *.
  - now destruct n.
  - destruct n as [|n]; simpl.
    + now rewrite substring_all.
    + f_equal. apply IH. lia.
Qed.

Lemma drop_last_append (n : nat) (a b : string) :
  (n <= String.length b)%nat ->
  Py.drop_last n (a ++ b) = (a ++ Py.drop_last n b)%string.
Proof.
  intros Hn. unfold Py.drop_last. rewrite length_append.
  replace (String.length a + String.length b - n)%nat
    with (String.length a + (String.length b - n))%nat by lia.
  apply substring_0_append.
Qed.

Lemma lower_append (a b : string) : Py.lower (a ++ b) = (Py.lower a ++ Py.lower b)%string.
Proof.
  induction a as [|c a IH]; simpl; [reflexivity|]. now rewrite IH.
Qed.

Lemma all_chars_append (p : ascii -> bool) (a b : string) :
  Py.all_chars p (a ++ b) = Py.all_chars p a && Py.all_chars p b.
Proof.
  induction a as [|c a IH]; simpl; [reflexivity|]. now rewrite IH, andb_assoc.
Qed.

Lemma all_chars_impl (p q : ascii -> bool) (s : string) :
  (forall c, p c = true -> q c = true) ->
  Py.all_chars p s = true -> Py.all_chars q s = true.
Proof.
  intros Hpq. induction s as [|c s IH]; simpl; [reflexivity|].
  intros H. apply andb_prop in H as [Hc Hs]. now rewrite (Hpq c Hc), IH.
Qed.

Lemma endswith_append (p suffix : string) : Py.endswith (p ++ suffix) suffix = true.
Proof.
  unfold Py.endswith. rewrite length_append.
  replace (String.length p + String.length suffix - String.length suffix)%nat
    with (String.length p + 0)%nat by lia.
  rewrite substring_skip, substring_all, String.eqb_refl, andb_true_r.
  apply Nat.leb_le. lia.
Qed.

Lemma endswith_append_r (a b suffix : string) :
  (String.length suffix <= String.length b)%nat ->
  Py.endswith (a ++ b) suffix = Py.endswith b suffix.
Proof.
  intros Hlen. unfold Py.endswith. rewrite length_append.
  replace (String.length a + String.length b - String.length suffix)%nat
    with (String.length a + (String.length b - String.length suffix))%nat by lia.
  rewrite substring_skip. f_equal.
  destruct (Nat.leb_spec (String.length suffix) (String.length b)); [|lia].
  apply Nat.leb_le. lia.
Qed.

Lemma endswith_inv (s suffix : string) :
  Py.endswith s suffix = true ->
  s = (Py.drop_last (String.length suffix) s ++ suffix)%string.
Proof.
  unfold Py.endswith, Py.drop_last. intros H.
  apply andb_prop in H as [Hlen Hsub].
  apply Nat.leb_le in Hlen. apply String.eqb_eq in Hsub.
  pose proof (substring_split s (String.length s - String.length suffix)) as Hsplit.
  replace (String.length s - (String.length s - String.length suffix))%nat
    with (String.length suffix) in Hsplit by lia.
  rewrite Hsub in Hsplit. apply Hsplit. lia.
Qed.

Lemma rpartition_none (sep : ascii) (s : string) :
  Py.all_chars (fun c => negb (Ascii.eqb c sep)) s = true -> Py.rpartition sep s = None.
Proof.
  induction s as [|c s IH]; simpl; [reflexivity|].
  intros H. apply andb_prop in H as [Hc Hs].
  rewrite (IH Hs). apply negb_true_iff in Hc. now rewrite Hc.
Qed.

Lemma rpartition_none_clean (sep : ascii) (s : string) :
  Py.rpartition sep s = None ->
  Py.all_chars (fun c => negb (Ascii.eqb c sep)) s = true.
Proof.
  induction s as [|c s IH]; simpl; [reflexivity|].
  destruct (Py.rpartition sep s) as [[before after]|]; [discriminate|].
  destruct (Ascii.eqb c sep); [discriminate|]. intros _. now rewrite IH.
Qed.

Lemma rpartition_some (sep : ascii) (s before after : string) :
  Py.rpartition sep s = Some (before, after) ->
  s = (before ++ String sep after)%string
  /\ Py.all_chars (fun c => negb (Ascii.eqb c sep)) after = true.
Proof.
  revert before. induction s as [|c s IH]; intros before; simpl; [discriminate|].
  destruct (Py.rpartition sep s) as [[b a]|] eqn:Hs.
  - intros [= <- <-]. destruct (IH b eq_refl) as [-> Hclean]. now split.
  - destruct (Ascii.eqb_spec c sep) as [->|]; [|discriminate].
    intros [= <- <-]. split; [reflexivity|now apply rpartition_none_clean].
Qed.

Lemma rpartition_append (sep : ascii) (a b : string) :
  Py.all_chars (fun c => negb (Ascii.eqb c sep)) b = true ->
  Py.rpartition sep (a ++ b)
  = match Py.rpartition sep a with
    | Some (before, after) => Some (before, (after ++ b)%string)
    | None => None
    end.
Proof.
  intros Hb. induction a as [|c a IH]; simpl.
  - now apply rpartition_none.
  - rewrite IH. destruct (Py.rpartition sep a) as [[before after]|]; [reflexivity|].
    now destruct (Ascii.eqb c sep).
Qed.

Lemma rpartition_at_end (sep : ascii) (stem : string) :
  Py.rpartition sep (stem ++ String sep "") = Some (stem, "").
Proof.
  induction stem as [|c stem IH]; simpl.
  - now rewrite Ascii.eqb_refl.
  - now rewrite IH.
Qed.

Lemma digit_is_not_hash (c : ascii) :
  Py.is_digit_char c = true -> negb (Ascii.eqb c "#") = true.
Proof.
  destruct (Ascii.eqb_spec c "#") as [->|]; [discriminate|reflexivity].
Qed.

Lemma uint_chars (d : uint) :
  Py.lower (NilEmpty.string_of_uint d) = NilEmpty.string_of_uint d
  /\ Py.all_chars (fun c => negb (Ascii.eqb c "#")) (NilEmpty.string_of_uint d) = true.
Proof.
  induction d as [|d [IH1 IH2]|d [IH1 IH2]|d [IH1 IH2]|d [IH1 IH2]|d [IH1 IH2]
                  |d [IH1 IH2]|d [IH1 IH2]|d [IH1 IH2]|d [IH1 IH2]|d [IH1 IH2]];
    simpl; rewrite ?IH1, ?IH2; split; reflexivity.
Qed.

Lemma str_of_int_chars (n : Z) :
  Py.lower (Py.str_of_int n) = Py.str_of_int n
  /\ Py.all_chars (fun c => negb (Ascii.eqb c "#")) (Py.str_of_int n) = true.
Proof.
  unfold Py.str_of_int, NilZero.string_of_int, NilZero.string_of_uint.
  destruct (Z.to_int n) as [d|d]; destruct d; simpl; try (split; reflexivity);
    match goal with
    | |- context [NilEmpty.string_of_uint ?d] =>
        destruct (uint_chars d) as [H1 H2]; rewrite ?H1, ?H2; split; reflexivity
    end.
Qed.

Lemma str_of_int_inj (n m : Z) : Py.str_of_int n = Py.str_of_int m -> n = m.
Proof.
  unfold Py.str_of_int. intros H.
  apply DecimalZ.to_int_inj.
  assert (Hnn : forall z, Z.to_int z <> Pos Nil /\ Z.to_int z <> Neg Nil).
  { intros [|p|p]; simpl; split; try discriminate;
      intros [= Hp]; now apply DecimalPos.Unsigned.to_uint_nonnil in Hp. }
  apply (f_equal NilZero.int_of_string) in H.
  rewrite !NilZero.isi in H by apply Hnn.
  now injection H.
Qed.

Lemma mem_In (x : string) (l : list string) : Py.mem x l = true <-> In x l.
Proof.
  unfold Py.mem. rewrite existsb_exists. split.
  - intros [y [Hy Heq]]. apply String.eqb_eq in Heq. now subst.
  - intros H. exists x. split; [assumption|apply String.eqb_refl].
Qed.

Lemma mem_without (x y : string) (l1 l2 : list string) :
  x <> y -> Py.mem x (l1 ++ y :: l2) = Py.mem x (l1 ++ l2).
Proof.
  intros Hxy. unfold Py.mem. rewrite !existsb_app. simpl.
  apply String.eqb_neq in Hxy. now rewrite Hxy.
Qed.

Lemma any_const {A : Type} (b : bool) (x : A) (l : list A) :
  Py.any (map (fun _ => b) (x :: l)) = b.
Proof.
  unfold Py.any. simpl. destruct b; [reflexivity|].
  induction l as [|y l IH]; simpl; auto.
Qed.

Lemma any_nil {A : Type} (b : bool) : Py.any (map (fun _ : A => b) []) = false.
Proof. reflexivity. Qed.

Lemma any_const_true {A : Type} (b : bool) (l : list A) :
  Py.any (map (fun _ => b) l) = true -> b = true.
Proof.
  destruct l as [|x l]; [discriminate|]. now rewrite any_const.
Qed.

Lemma filter_split {A : Type} (p q : A -> bool) (l : list A) :
  Permutation (filter (fun x => p x && negb (q x)) l ++ filter (fun x => p x && q x) l)
              (filter p l).
Proof.
  induction l as [|x l IH]; simpl; [constructor|].
  destruct (p x), (q x); simpl; [|now constructor|assumption|assumption].
  rewrite <- Permutation_middle. now constructor.
Qed.

Lemma filter_none {A : Type} (p : A -> bool) (l : list A) :
  existsb p l = false -> filter p l = [].
Proof.
  induction l as [|x l IH]; simpl; [reflexivity|].
  destruct (p x); [discriminate|exact IH].
Qed.

Lemma last_item_snoc {A : Type} (l : list A) (x : A) : Py.last_item (l ++ [x]) = inr x.
Proof. unfold Py.last_item. now rewrite rev_unit. Qed.

Lemma last_item_some {A : Type} (l : list A) :
  l <> [] -> exists l' x, l = l' ++ [x] /\ Py.last_item l = inr x.
Proof.
  intros Hl. destruct (exists_last Hl) as [l' [x ->]].
  exists l', x. split; [reflexivity|apply last_item_snoc].
Qed.

(** ** Classification (lines 20-24, 36-44) *)

(** A name without the character [#] never passes [ends_with_px], whatever
    its ending. *)
Lemma ends_with_px_needs_hash (s : string) :
  Py.all_chars (fun c => negb (Ascii.eqb c "#")) s = true ->
  IcoPro.ends_with_px s = false.
Proof.
  intros H. unfold IcoPro.ends_with_px, Py.rsplit1.
  rewrite (rpartition_none _ _ H). simpl.
  now destruct (Py.endswith s "px").
Qed.

Lemma ends_with_px_clean_tail (a tail : string) :
  Py.all_chars (fun c => negb (Ascii.eqb c "#")) tail = true ->
  (2 <= String.length tail)%nat ->
  Py.all_chars Py.is_digit_char (Py.drop_last 2 tail) = false ->
  IcoPro.ends_with_px (a ++ tail) = false.
Proof.
  intros Hclean Hlen Hdigits. unfold IcoPro.ends_with_px, Py.rsplit1.
  rewrite (rpartition_append _ _ _ Hclean).
  destruct (Py.endswith (a ++ tail) "px"); [|reflexivity].
  destruct (Py.rpartition "#" a) as [[before after]|]; [|reflexivity].
  simpl. rewrite drop_last_append by assumption.
  unfold Py.isdigit. now rewrite all_chars_append, Hdigits, !andb_false_r.
Qed.

(** The test accepts the names of the shape stem#<digits>px, and only
    those: the separator is the character [#]. *)
Lemma ends_with_px_iff (s : string) :
  IcoPro.ends_with_px s = true
  <-> exists stem digits,
        s = (stem ++ "#" ++ digits ++ "px")%string /\ Py.isdigit digits = true.
Proof.
  unfold IcoPro.ends_with_px, Py.rsplit1. split.
  - destruct (Py.endswith s "px") eqn:Hpx; [|discriminate].
    destruct (Py.rpartition "#" s) as [[before after]|] eqn:Hpart; [|discriminate].
    simpl. intros Hdigits.
    destruct (rpartition_some _ _ _ _ Hpart) as [Hs _].
    assert (Hlen : (2 <= String.length after)%nat).
    { unfold Py.isdigit, Py.drop_last in Hdigits.
      destruct (Nat.leb_spec 2 (String.length after)); [assumption|].
      replace (String.length after - 2)%nat with 0%nat in Hdigits by lia.
      now destruct after. }
    exists before, (Py.drop_last 2 after). split; [|assumption].
    rewrite Hs in Hpx.
    change (before ++ String "#" after)%string
      with (before ++ String "#" "" ++ after)%string in Hpx.
    rewrite <- append_assoc, endswith_append_r in Hpx by exact Hlen.
    apply endswith_inv in Hpx. simpl String.length in Hpx.
    rewrite Hs. simpl. now rewrite <- Hpx.
  - intros [stem [digits [-> Hdigits]]].
    unfold Py.isdigit in Hdigits. apply andb_prop in Hdigits as [Hne Hall].
    replace (stem ++ "#" ++ digits ++ "px")%string
      with ((stem ++ String "#" "") ++ (digits ++ "px"))%string
      by (now rewrite !append_assoc).
    assert (Hclean : Py.all_chars (fun c => negb (Ascii.eqb c "#")) (digits ++ "px") = true).
    { rewrite all_chars_append, (all_chars_impl _ _ _ digit_is_not_hash Hall). reflexivity. }
    assert (Htail : Py.drop_last 2 (digits ++ "px") = digits).
    { rewrite drop_last_append by (simpl; lia).
      change (Py.drop_last 2 "px") with "". apply append_nil_r. }
    assert (Hpx : Py.endswith ((stem ++ String "#" "") ++ digits ++ "px") "px" = true).
    { rewrite <- append_assoc. apply endswith_append. }
    generalize dependent (digits ++ "px")%string. intros tail Hclean Htail Hpx.
    rewrite Hpx, (rpartition_append _ _ _ Hclean), rpartition_at_end.
    simpl. rewrite Htail. unfold Py.isdigit. now rewrite Hne, Hall.
Qed.

Lemma variant_name_inj (base : string) (n m : Z) :
  IcoPro.variant_name base n = IcoPro.variant_name base m -> n = m.
Proof.
  unfold IcoPro.variant_name. intros H.
  apply append_cancel_l, append_cancel_l, append_cancel_r in H.
  now apply str_of_int_inj.
Qed.

Lemma variant_fails_px (base : string) (size : Z) :
  IcoPro.ends_with_px (Py.lower (Py.drop_last 4 (IcoPro.variant_name base size))) = false.
Proof.
  unfold IcoPro.variant_name.
  destruct (str_of_int_chars size) as [Hlow Hclean].
  set (stem := Py.drop_last 4 base).
  set (digits := Py.str_of_int size) in *.
  replace (stem ++ "-" ++ digits ++ "px.svg")%string
    with ((stem ++ "-" ++ digits) ++ "px.svg")%string
    by (now rewrite !append_assoc).
  rewrite drop_last_append by (simpl; lia).
  change (Py.drop_last 4 "px.svg") with "px".
  rewrite append_assoc, lower_append.
  apply ends_with_px_clean_tail.
  - rewrite append_assoc, !lower_append, Hlow, !all_chars_append, Hclean. reflexivity.
  - rewrite append_assoc, !lower_append, !length_append. simpl. lia.
  - rewrite !lower_append, Hlow.
    rewrite drop_last_append by (simpl; lia).
    rewrite !all_chars_append. reflexivity.
Qed.

(** No name looked up for a base file and a size is in the list of
    alternatives the script computes. *)
Lemma variant_never_alternative (listing : list string) (sizes : list Z)
      (base : string) (size : Z) :
  Py.mem (IcoPro.variant_name base size) (IcoPro.alt_filenames listing sizes) = false.
Proof.
  destruct (Py.mem _ _) eqn:Hmem; [|reflexivity].
  apply mem_In, sorted_str_In, filter_In in Hmem as [_ Hp].
  apply andb_prop in Hp as [_ Hany]. apply any_const_true in Hany.
  now rewrite variant_fails_px in Hany.
Qed.

(** C2. The separator the test looks for is [#], not the [-] of the
    docstring and of [variant_name]: [logo-16px.svg] has the documented
    shape and is classified as a base file, and no file is an alternative
    of it; [logo#16px.svg] is what the test accepts. On the folder of the
    specification's example, all four files are base files. *)
Theorem ends_with_px_rejects_dash :
  IcoPro.ends_with_px (Py.lower (Py.drop_last 4 "logo-16px.svg")) = false
  /\ IcoPro.base_filenames ["logo.svg"; "logo-16px.svg"; "logo-32px.svg"; "icon.svg"]
                           [16; 32; 64]%Z
     = ["icon.svg"; "logo-16px.svg"; "logo-32px.svg"; "logo.svg"]
  /\ IcoPro.alt_filenames ["logo.svg"; "logo-16px.svg"; "logo-32px.svg"; "icon.svg"]
                          [16; 32; 64]%Z = []
  /\ IcoPro.ends_with_px (Py.lower (Py.drop_last 4 "logo#16px.svg")) = true
  /\ IcoPro.alt_filenames ["logo.svg"; "logo#16px.svg"] [16; 32; 64]%Z
     = ["logo#16px.svg"].
Proof. repeat split; reflexivity. Qed.

Lemma base_filenames_none (listing : list string) :
  IcoPro.base_filenames listing []
  = Py.sorted_str (filter (fun f => Py.endswith (Py.lower f) ".svg") listing).
Proof.
  unfold IcoPro.base_filenames. f_equal. apply filter_ext. intros f.
  simpl. apply andb_true_r.
Qed.

Lemma base_filenames_many (listing : list string) (s : Z) (sizes : list Z) :
  IcoPro.base_filenames listing (s :: sizes)
  = Py.sorted_str
      (filter (fun f => Py.endswith (Py.lower f) ".svg"
                        && negb (IcoPro.ends_with_px (Py.lower (Py.drop_last 4 f))))
              listing).
Proof.
  unfold IcoPro.base_filenames. f_equal. apply filter_ext. intros f.
  now rewrite any_const.
Qed.

Lemma alt_filenames_many (listing : list string) (s s' : Z) (sizes : list Z) :
  IcoPro.alt_filenames listing (s :: s' :: sizes)
  = Py.sorted_str
      (filter (fun f => Py.endswith (Py.lower f) ".svg"
                        && IcoPro.ends_with_px (Py.lower (Py.drop_last 4 f)))
              listing).
Proof.
  unfold IcoPro.alt_filenames, Py.but_last. f_equal. apply filter_ext. intros f.
  change (removelast (s :: s' :: sizes)) with (s :: removelast (s' :: sizes)).
  now rewrite any_const.
Qed.

(** With one size only, [sizes[:-1]] is empty and no file is an
    alternative, while the files that pass [ends_with_px] are still kept
    out of the base files. *)
Lemma alt_filenames_one (listing : list string) (s : Z) :
  IcoPro.alt_filenames listing [s] = [].
Proof.
  unfold IcoPro.alt_filenames. simpl.
  replace (filter _ listing) with (@nil string); [reflexivity|].
  induction listing as [|f l IH]; simpl; [reflexivity|].
  now rewrite andb_false_r.
Qed.

(** C3, as the claim has it, fails: with the single size 16 the file
    [logo#16px.svg] is in neither list. *)
Lemma one_size_loses_alternative :
  let listing := ["logo.svg"; "logo#16px.svg"] in
  let sizes := [16%Z] in
  sizes <> []
  /\ In "logo#16px.svg" listing
  /\ Py.endswith (Py.lower "logo#16px.svg") ".svg" = true
  /\ ~ In "logo#16px.svg" (IcoPro.base_filenames listing sizes)
  /\ ~ In "logo#16px.svg" (IcoPro.alt_filenames listing sizes).
Proof.
  cbv zeta. repeat split.
  - discriminate.
  - right; left; reflexivity.
  - vm_compute. intros [H|[]]; discriminate H.
  - vm_compute. intros [].
Qed.

(** C3, amended. For at least two sizes, the [.svg] files of the folder are
    split between the base files and the alternatives, each file in exactly
    one of the two lists, and both lists are in lexicographic order. *)
Theorem classification_partition (listing : list string) (sizes : list Z) :
  (2 <= List.length sizes)%nat ->
  let base := IcoPro.base_filenames listing sizes in
  let alt := IcoPro.alt_filenames listing sizes in
  Permutation (base ++ alt) (filter (fun f => Py.endswith (Py.lower f) ".svg") listing)
  /\ (forall f, In f base -> ~ In f alt)
  /\ Sorted str_le base
  /\ Sorted str_le alt.
Proof.
  intros Hlen. destruct sizes as [|s [|s' sizes]]; simpl in Hlen; try lia.
  cbv zeta. rewrite base_filenames_many, alt_filenames_many.
  repeat split.
  - unfold Py.sorted_str. rewrite !sorted_perm. apply filter_split.
  - intros f Hb Ha.
    apply sorted_str_In, filter_In in Hb. apply sorted_str_In, filter_In in Ha.
    destruct Hb as [_ Hb], Ha as [_ Ha].
    destruct (IcoPro.ends_with_px _); rewrite ?andb_false_r in *; discriminate.
  - apply sorted_str_Sorted.
  - apply sorted_str_Sorted.
Qed.

Lemma classification_partition_witness :
  let base := IcoPro.base_filenames ["logo.svg"; "logo#16px.svg"; "icon.svg"] [16; 32; 64]%Z in
  let alt := IcoPro.alt_filenames ["logo.svg"; "logo#16px.svg"; "icon.svg"] [16; 32; 64]%Z in
  Permutation (base ++ alt)
              (filter (fun f => Py.endswith (Py.lower f) ".svg")
                      ["logo.svg"; "logo#16px.svg"; "icon.svg"])
  /\ (forall f, In f base -> ~ In f alt)
  /\ Sorted str_le base
  /\ Sorted str_le alt.
Proof.
  apply classification_partition. simpl. lia.
Defined.

(** ** The [--changed] filter (lines 50-83) *)

Section ChangedFilter.
Variable path_join : string -> string -> string.
Variable normpath : string -> string.
Variable input_folder : string.
Variables alt_filenames changed_paths : list string.
Variable sizes : list Z.

Lemma variant_changed_iff (base : string) :
  IcoPro.variant_changed path_join normpath input_folder alt_filenames changed_paths base sizes
  = true
  <-> exists size, In size sizes
                   /\ In (IcoPro.variant_name base size) alt_filenames
                   /\ In (in_folder path_join normpath input_folder
                                    (IcoPro.variant_name base size)) changed_paths.
Proof.
  induction sizes as [|size rest IH]; simpl.
  - split; [discriminate|intros [? [[] _]]].
  - destruct (Py.mem (IcoPro.variant_name base size) alt_filenames) eqn:Halt.
    + destruct (Py.mem (normpath (path_join input_folder (IcoPro.variant_name base size)))
                       changed_paths) eqn:Hch.
      * split; [intros _|reflexivity].
        exists size. repeat split; [now left| |]; now apply mem_In.
      * rewrite IH. split.
        -- intros [s [Hs Hrest]]. exists s. split; [now right|assumption].
        -- intros [s [[->|Hs] [Ha Hc]]].
           ++ apply mem_In in Hc. unfold in_folder in Hc. congruence.
           ++ exists s. now repeat split.
    + rewrite IH. split.
      * intros [s [Hs Hrest]]. exists s. split; [now right|assumption].
      * intros [s [[->|Hs] [Ha Hc]]].
        -- apply mem_In in Ha. congruence.
        -- exists s. now repeat split.
Qed.

Lemma filter_loop_filter (base_filenames filtered_base : list string) :
  IcoPro.filter_loop path_join normpath input_folder alt_filenames changed_paths sizes
                     base_filenames filtered_base
  = filtered_base
    ++ filter (fun base =>
                 Py.mem (in_folder path_join normpath input_folder base) changed_paths
                 || IcoPro.variant_changed path_join normpath input_folder alt_filenames
                      changed_paths base sizes)
              base_filenames.
Proof.
  revert filtered_base.
  induction base_filenames as [|base rest IH]; intros acc; simpl.
  - now rewrite app_nil_r.
  - unfold in_folder.
    destruct (Py.mem (normpath (path_join input_folder base)) changed_paths); simpl.
    + rewrite IH, <- app_assoc. reflexivity.
    + destruct (IcoPro.variant_changed _ _ _ _ _ base sizes).
      * rewrite IH, <- app_assoc. reflexivity.
      * apply IH.
Qed.

(** The loop of lines 63-77 on a list of alternatives given by hand: a base
    file is kept iff its own path is in the change set or one of the
    alternatives of the list, named stem-<size>px.svg for a requested
    size, has its path in the change set; the order is kept. *)
Lemma changed_filter_keeps (base_filenames : list string) :
  let filtered_base :=
    IcoPro.filter_loop path_join normpath input_folder alt_filenames changed_paths sizes
      base_filenames [] in
  let changed (base : string) : Prop :=
    In (in_folder path_join normpath input_folder base) changed_paths
    \/ exists size, In size sizes
                    /\ In (IcoPro.variant_name base size) alt_filenames
                    /\ In (in_folder path_join normpath input_folder
                                     (IcoPro.variant_name base size)) changed_paths in
  (forall base, In base filtered_base <-> In base base_filenames /\ changed base)
  /\ exists keep : string -> bool,
       (forall base, keep base = true <-> changed base)
       /\ filtered_base = filter keep base_filenames.
Proof.
  cbv zeta.
  assert (Hkeep : forall base,
             Py.mem (in_folder path_join normpath input_folder base) changed_paths
             || IcoPro.variant_changed path_join normpath input_folder alt_filenames
                  changed_paths base sizes = true
             <-> In (in_folder path_join normpath input_folder base) changed_paths
                 \/ exists size, In size sizes
                                 /\ In (IcoPro.variant_name base size) alt_filenames
                                 /\ In (in_folder path_join normpath input_folder
                                                  (IcoPro.variant_name base size))
                                       changed_paths).
  { intros base. rewrite orb_true_iff, mem_In, variant_changed_iff. reflexivity. }
  rewrite (filter_loop_filter base_filenames []), app_nil_l. split.
  - intros base. rewrite filter_In, Hkeep. reflexivity.
  - eexists. split; [exact Hkeep|reflexivity].
Qed.

(** In incremental mode, when the four queries succeed, the work list is
    that filtered list and nothing is printed. *)
Lemma changed_stage_filters (git : git_queries) (base_filenames : list string)
      (out : string) (paths : list string) :
  rev_parse git = inr out ->
  IcoPro.collect_changed path_join normpath (Py.strip out)
    [diff_names git; diff_cached git; ls_others git] [] = inr paths ->
  IcoPro.changed_stage path_join normpath input_folder true git base_filenames
    alt_filenames sizes
  = inr (IcoPro.filter_loop path_join normpath input_folder alt_filenames paths sizes
           base_filenames [], []).
Proof.
  intros Hroot Hc. unfold IcoPro.changed_stage. now rewrite Hroot, Hc.
Qed.

(** When [git rev-parse] has answered and a later query raises, the work
    list is left as it was and a warning is printed. *)
Lemma changed_stage_degrades (git : git_queries) (base_filenames : list string)
      (out msg : string) :
  rev_parse git = inr out ->
  IcoPro.collect_changed path_join normpath (Py.strip out)
    [diff_names git; diff_cached git; ls_others git] [] = inl msg ->
  IcoPro.changed_stage path_join normpath input_folder true git base_filenames
    alt_filenames sizes
  = inr (base_filenames,
         [("repo_root: " ++ Py.strip out)%string;
          ("Warning: Failed to filter changed files: " ++ msg)%string]).
Proof.
  intros Hroot Hc. unfold IcoPro.changed_stage. now rewrite Hroot, Hc.
Qed.

(** C6. When the first query, [git rev-parse --show-toplevel], raises (no
    git, or a folder outside any repository), the handler reads
    [repo_root] before any assignment: the [only_changed] block raises
    [UnboundLocalError] and [convert_svg_to_ico] ends with it, no base
    file being processed. *)
Theorem unreachable_git_aborts (msg : string) (o1 o2 o3 : string + list string)
        (base_filenames : list string) (listing : list string) (any_sizes : list Z) :
  let git := {| rev_parse := inl msg; diff_names := o1; diff_cached := o2; ls_others := o3 |} in
  IcoPro.changed_stage path_join normpath input_folder true git base_filenames
    alt_filenames sizes = inl UnboundLocalError
  /\ IcoPro.convert_svg_to_ico path_join normpath input_folder listing any_sizes true git
     = inl UnboundLocalError.
Proof. split; reflexivity. Qed.
End ChangedFilter.

(** ** The choice of a source for every size (lines 89-128) *)

Lemma ascending_Sorted (l : list Z) : ascending l = true -> StronglySorted Z.le l.
Proof.
  intros H. apply Sorted_StronglySorted; [exact Z.le_trans|].
  induction l as [|x l IH]; [constructor|].
  simpl in H. destruct l as [|y l].
  - repeat constructor.
  - apply andb_prop in H as [Hxy Hl]. constructor; [now apply IH|].
    constructor. now apply Z.leb_le.
Qed.

Lemma increasing_Sorted (l : list Z) : strictly_increasing l = true -> StronglySorted Z.lt l.
Proof.
  intros H. apply Sorted_StronglySorted; [exact Z.lt_trans|].
  induction l as [|x l IH]; [constructor|].
  simpl in H. destruct l as [|y l].
  - repeat constructor.
  - apply andb_prop in H as [Hxy Hl]. constructor; [now apply IH|].
    constructor. now apply Z.ltb_lt.
Qed.

Lemma increasing_ascending (l : list Z) : strictly_increasing l = true -> ascending l = true.
Proof.
  induction l as [|x l IH]; [reflexivity|].
  simpl. destruct l as [|y l]; [reflexivity|].
  intros H. apply andb_prop in H as [Hxy Hl].
  rewrite (IH Hl), andb_true_r. apply Z.leb_le. apply Z.ltb_lt in Hxy. lia.
Qed.

Lemma sorted_below_last (l : list Z) (x : Z) :
  StronglySorted Z.le (l ++ [x]) -> Forall (fun s => (s <= x)%Z) (l ++ [x]).
Proof.
  induction l as [|a l IH]; simpl; intros H.
  - constructor; [lia|constructor].
  - inversion H as [|? ? Hl Ha]; subst.
    constructor; [|now apply IH].
    apply Forall_app in Ha as [_ Hx]. now inversion Hx.
Qed.

Lemma ascending_below_last (sizes : list Z) (largest : Z) :
  ascending sizes = true -> Py.last_item sizes = inr largest ->
  Forall (fun s => (s <= largest)%Z) sizes.
Proof.
  intros Hasc Hlast.
  destruct sizes as [|s sizes]; [constructor|].
  destruct (last_item_some (s :: sizes)) as [l [x [Heq Hx]]]; [discriminate|].
  rewrite Hx in Hlast. injection Hlast as <-.
  rewrite Heq in *. now apply sorted_below_last, ascending_Sorted.
Qed.

(** The loop never pops from an empty list when the last entry admits
    every size. *)
Lemma render_loop_total (largest : Z) (sizes : list Z) :
  Forall (fun s => (s <= largest)%Z) sizes ->
  forall (input : source) (inputs : list source),
    (exists before last, input :: inputs = before ++ [last] /\ maximum_size last = largest) ->
    exists calls, IcoPro.render_loop input inputs sizes = inr calls /\ map snd calls = sizes.
Proof.
  induction 1 as [|s sizes Hs Hrest IH]; intros input inputs Hlast; simpl.
  - exists []. split; reflexivity.
  - destruct (Z.gtb_spec s (maximum_size input)) as [Hgt|Hle].
    + destruct inputs as [|next inputs].
      * destruct Hlast as [before [last [Heq Hmax]]].
        destruct before as [|b [|b' before]]; simpl in Heq; try discriminate.
        injection Heq as ->. lia.
      * destruct (IH next inputs) as [calls [Hcalls Hmap]].
        { destruct Hlast as [before [last [Heq Hmax]]].
          destruct before as [|b before]; simpl in Heq; [discriminate|].
          injection Heq as -> Heq. now exists before, last. }
        simpl. rewrite Hcalls. simpl. eexists. split; [reflexivity|].
        simpl. now rewrite Hmap.
    + destruct (IH input inputs Hlast) as [calls [Hcalls Hmap]].
      simpl. rewrite Hcalls. simpl. eexists. split; [reflexivity|].
      simpl. now rewrite Hmap.
Qed.

(** C9. With the base file as the last entry of [inputs] and the largest
    size as its bound, neither the first [pop(0)] nor a later one is ever
    made on an empty list, whatever the entries before it: every size of a
    non-empty ascending sequence gets a source. *)
Theorem candidates_never_exhausted (overrides : list source) (base : source)
        (sizes : list Z) :
  sizes <> [] ->
  ascending sizes = true ->
  Py.last_item sizes = inr (maximum_size base) ->
  exists calls,
    pop_and_render (overrides ++ [base]) sizes = inr calls /\ map snd calls = sizes.
Proof.
  intros _ Hasc Hlast.
  pose proof (ascending_below_last sizes _ Hasc Hlast) as Hall.
  unfold pop_and_render.
  destruct (overrides ++ [base]) as [|input inputs] eqn:Heq.
  - now destruct overrides.
  - simpl. apply (render_loop_total (maximum_size base)); [assumption|].
    exists overrides, base. now rewrite Heq.
Qed.

Lemma candidates_never_exhausted_witness :
  exists calls,
    pop_and_render ([{| path := "svg/a-16px.svg"; maximum_size := 16 |};
                     {| path := "svg/a-24px.svg"; maximum_size := 24 |}]
                      ++ [{| path := "svg/a.svg"; maximum_size := 64 |}])
                   [16; 32; 32; 64]%Z = inr calls
    /\ map snd calls = [16; 32; 32; 64]%Z.
Proof.
  apply candidates_never_exhausted; [discriminate|reflexivity|reflexivity].
Defined.

Section Resolver.
Variable path_join : string -> string -> string.
Variable input_folder : string.
Variable alt_filenames : list string.
Variable base_filename : string.

Lemma alt_inputs_closed (sizes : list Z) (inputs : list source) :
  IcoPro.alt_inputs path_join input_folder alt_filenames base_filename sizes inputs
  = inputs ++ alt_sources path_join input_folder alt_filenames base_filename sizes.
Proof.
  revert inputs. induction sizes as [|size sizes IH]; intros inputs; simpl.
  - now rewrite app_nil_r.
  - destruct (Py.mem (IcoPro.variant_name base_filename size) alt_filenames); simpl.
    + rewrite IH, <- app_assoc. reflexivity.
    + apply IH.
Qed.

Lemma build_inputs_closed (sizes : list Z) (largest : Z) :
  Py.last_item sizes = inr largest ->
  IcoPro.build_inputs path_join input_folder alt_filenames base_filename sizes
  = inr (alt_sources path_join input_folder alt_filenames base_filename sizes
         ++ [{| path := path_join input_folder base_filename; maximum_size := largest |}]).
Proof.
  intros Hlast. unfold IcoPro.build_inputs. rewrite Hlast, alt_inputs_closed. reflexivity.
Qed.

Lemma inputs_above (size : Z) (sizes : list Z) (last : source) :
  Forall (fun s => (size <= s)%Z) sizes ->
  (size <= maximum_size last)%Z ->
  Forall (fun c => (size <= maximum_size c)%Z)
         (alt_sources path_join input_folder alt_filenames base_filename sizes ++ [last]).
Proof.
  intros Hs Hl. apply Forall_app. split; [|now repeat constructor].
  unfold alt_sources. apply Forall_flat_map.
  eapply Forall_impl; [|exact Hs]. intros s Hle. cbv beta.
  destruct (Py.mem _ _); now repeat constructor.
Qed.

Lemma inputs_sorted (sizes : list Z) (last : source) :
  StronglySorted Z.lt sizes ->
  Forall (fun s => (s <= maximum_size last)%Z) sizes ->
  StronglySorted (fun a b => (maximum_size a <= maximum_size b)%Z)
    (alt_sources path_join input_folder alt_filenames base_filename sizes ++ [last]).
Proof.
  induction 1 as [|s sizes Hsorted IH Hlt]; intros Hb; simpl.
  - repeat constructor.
  - inversion Hb as [|? ? Hs Hrest]; subst.
    destruct (Py.mem _ _); simpl; [|now apply IH].
    constructor; [now apply IH|].
    apply (inputs_above s); [|assumption].
    eapply Forall_impl; [|exact Hlt]. intros; cbv beta; lia.
Qed.

(** An entry whose bound is below every remaining size is left at the
    next step, for the head of [inputs] when that one admits the size. *)
Lemma render_stale (input next : source) (inputs : list source) (sizes : list Z) :
  Forall (fun s => (maximum_size input < s)%Z) sizes ->
  Forall (fun s => (s <= maximum_size next)%Z) (firstn 1 sizes) ->
  IcoPro.render_loop input (next :: inputs) sizes = pop_and_render (next :: inputs) sizes.
Proof.
  intros Hlow Hhead. destruct sizes as [|s sizes]; [reflexivity|].
  inversion Hlow as [|? ? Hs _]; subst. inversion Hhead as [|? ? Hn _]; subst.
  unfold pop_and_render. simpl.
  destruct (Z.gtb_spec s (maximum_size input)); [|lia].
  destruct (Z.gtb_spec s (maximum_size next)); [lia|]. reflexivity.
Qed.

Lemma alt_sources_cons (s : Z) (sizes : list Z) :
  alt_sources path_join input_folder alt_filenames base_filename (s :: sizes)
  = (if Py.mem (IcoPro.variant_name base_filename s) alt_filenames
     then [alt_source path_join input_folder base_filename s] else [])
    ++ alt_sources path_join input_folder alt_filenames base_filename sizes.
Proof. reflexivity. Qed.

Lemma pop_and_render_fit (last : source) (sizes : list Z) :
  StronglySorted Z.lt sizes ->
  Forall (fun s => (s <= maximum_size last)%Z) sizes ->
  pop_and_render
    (alt_sources path_join input_folder alt_filenames base_filename sizes ++ [last]) sizes
  = inr (map (fun s =>
                (fit_path (alt_sources path_join input_folder alt_filenames
                                       base_filename sizes ++ [last]) s, s))
             sizes).
Proof.
  induction 1 as [|s sizes Hsorted IH Hlt]; intros Hb.
  - reflexivity.
  - inversion Hb as [|? ? Hs Hrest]; subst. specialize (IH Hrest).
    assert (Habove : Forall (fun c => (s <= maximum_size c)%Z)
                       (alt_sources path_join input_folder alt_filenames base_filename sizes
                        ++ [last])).
    { apply inputs_above; [|assumption].
      eapply Forall_impl; [|exact Hlt]. intros; cbv beta; lia. }
    assert (Hhead : forall next inputs,
               alt_sources path_join input_folder alt_filenames base_filename sizes ++ [last]
               = next :: inputs ->
               Forall (fun s' => (s' <= maximum_size next)%Z) (firstn 1 sizes)).
    { intros next inputs Heq. destruct sizes as [|s' sizes]; [constructor|].
      simpl. constructor; [|constructor].
      assert (Hall : Forall (fun c => (s' <= maximum_size c)%Z)
                       (alt_sources path_join input_folder alt_filenames base_filename
                                    (s' :: sizes) ++ [last])).
      { apply inputs_above; [|now inversion Hrest].
        inversion Hsorted as [|? ? _ Hlt']; subst.
        constructor; [lia|]. eapply Forall_impl; [|exact Hlt']. intros; cbv beta; lia. }
      rewrite Heq in Hall. now inversion Hall. }
    rewrite alt_sources_cons.
    remember (alt_sources path_join input_folder alt_filenames base_filename sizes ++ [last])
      as rest eqn:Heq.
    destruct rest as [|next inputs];
      [now destruct (alt_sources path_join input_folder alt_filenames base_filename sizes)|].
    specialize (Hhead next inputs eq_refl).
    destruct (Py.mem (IcoPro.variant_name base_filename s) alt_filenames).
    + rewrite <- app_assoc, <- Heq. unfold pop_and_render at 1. simpl.
      rewrite Z.gtb_ltb, Z.ltb_irrefl. simpl.
      rewrite render_stale, IH; [|assumption|assumption]. simpl.
      unfold ret. f_equal. f_equal.
      * unfold fit_path, first_fit. simpl. now rewrite Z.leb_refl.
      * apply map_ext_in. intros s' Hs'.
        rewrite Forall_forall in Hlt. specialize (Hlt s' Hs').
        unfold fit_path, first_fit. simpl.
        destruct (Z.leb_spec s' s); [lia|reflexivity].
    + rewrite app_nil_l, <- Heq. unfold pop_and_render at 1. simpl.
      inversion Habove as [|? ? Hnext _]; subst.
      destruct (Z.gtb_spec s (maximum_size next)); [lia|]. simpl.
      change (IcoPro.render_loop next inputs sizes) with (pop_and_render (next :: inputs) sizes).
      rewrite IH. simpl.
      unfold ret. do 2 f_equal.
      unfold fit_path, first_fit. simpl.
      destruct (Z.leb_spec s (maximum_size next)); [reflexivity|lia].
Qed.
End Resolver.

Lemma first_fit_least (inputs : list source) (size : Z) (c : source) :
  StronglySorted (fun a b => (maximum_size a <= maximum_size b)%Z) inputs ->
  first_fit inputs size = Some c ->
  In c inputs
  /\ (size <= maximum_size c)%Z
  /\ forall c', In c' inputs -> (size <= maximum_size c')%Z ->
                (maximum_size c <= maximum_size c')%Z.
Proof.
  unfold first_fit.
  induction 1 as [|a inputs Hsorted IH Ha]; simpl; [discriminate|].
  destruct (Z.leb_spec size (maximum_size a)) as [Hle|Hgt].
  - intros [= <-]. repeat split; [now left|assumption|].
    intros c' [<-|Hin] _; [lia|]. rewrite Forall_forall in Ha. now apply Ha.
  - intros Hfind. destruct (IH Hfind) as [Hin [Hle Hmin]].
    repeat split; [now right|assumption|].
    intros c' [<-|Hin'] Hc'; [lia|now apply Hmin].
Qed.

Lemma first_fit_exists (inputs : list source) (size : Z) (last : source) :
  In last inputs -> (size <= maximum_size last)%Z ->
  exists c, first_fit inputs size = Some c.
Proof.
  intros Hin Hle. unfold first_fit.
  destruct (find _ inputs) as [c|] eqn:Hfind; [now exists c|].
  apply (find_none _ _ Hfind) in Hin. apply Z.leb_gt in Hin. lia.
Qed.

Lemma group_calls_sizes (calls : list (string * Z)) :
  concat (map snd (group_calls calls)) = map snd calls.
Proof.
  induction calls as [|[p s] calls IH]; [reflexivity|].
  simpl. destruct (group_calls calls) as [|[p' ss] groups].
  - simpl in *. now rewrite <- IH.
  - destruct (String.eqb p p'); simpl in *; now rewrite <- IH.
Qed.

(** Lines 89-128 on a list of alternatives given by hand: for a non-empty
    strictly increasing size sequence, the loop gives every requested
    size, in order and once, to an entry of [inputs] whose bound admits it
    and is the smallest to do so; read as a render plan, the serviced sizes
    of the entries, put end to end, are the size sequence. *)
Lemma render_calls_smallest_fit (path_join : string -> string -> string)
        (input_folder : string) (alt_filenames : list string) (base_filename : string)
        (sizes : list Z) :
  sizes <> [] ->
  strictly_increasing sizes = true ->
  exists inputs calls,
    IcoPro.build_inputs path_join input_folder alt_filenames base_filename sizes = inr inputs
    /\ IcoPro.render_calls path_join input_folder alt_filenames base_filename sizes = inr calls
    /\ map snd calls = sizes
    /\ Forall (fun call =>
                 exists c, In c inputs
                           /\ fst call = path c
                           /\ (snd call <= maximum_size c)%Z
                           /\ forall c', In c' inputs -> (snd call <= maximum_size c')%Z ->
                                         (maximum_size c <= maximum_size c')%Z)
              calls
    /\ concat (map snd (group_calls calls)) = sizes.
Proof.
  intros Hne Hinc.
  destruct (last_item_some sizes Hne) as [l [largest [Heq Hlast]]].
  pose proof (ascending_below_last sizes largest (increasing_ascending _ Hinc) Hlast) as Hall.
  pose proof (increasing_Sorted _ Hinc) as Hsorted.
  set (last := {| path := path_join input_folder base_filename; maximum_size := largest |}).
  set (inputs := alt_sources path_join input_folder alt_filenames base_filename sizes ++ [last]).
  assert (Hcalls : IcoPro.render_calls path_join input_folder alt_filenames base_filename sizes
                   = inr (map (fun s => (fit_path inputs s, s)) sizes)).
  { unfold IcoPro.render_calls. rewrite (build_inputs_closed _ _ _ _ _ largest Hlast).
    apply (pop_and_render_fit path_join input_folder alt_filenames base_filename last);
      assumption. }
  assert (Hmap : map snd (map (fun s => (fit_path inputs s, s)) sizes) = sizes).
  { rewrite map_map. simpl. apply map_id. }
  exists inputs, (map (fun s => (fit_path inputs s, s)) sizes).
  repeat split.
  - apply build_inputs_closed, Hlast.
  - exact Hcalls.
  - exact Hmap.
  - apply Forall_forall. intros call Hin.
    apply in_map_iff in Hin as [s [<- Hs]]. simpl.
    pose proof (proj1 (Forall_forall _ _) Hall s Hs) as Hfits.
    destruct (first_fit_exists inputs s last) as [c Hc];
      [apply in_or_app; right; now left|assumption|].
    destruct (first_fit_least inputs s c) as [Hin [Hle Hmin]];
      [now apply inputs_sorted|assumption|].
    exists c. unfold fit_path. rewrite Hc. now repeat split.
  - now rewrite group_calls_sizes.
Qed.

Lemma render_calls_smallest_fit_witness :
  exists inputs calls,
    IcoPro.build_inputs Py.posix_join "svg" ["base-32px.svg"; "base-64px.svg"] "base.svg"
                        [16; 32; 48; 64; 256]%Z = inr inputs
    /\ IcoPro.render_calls Py.posix_join "svg" ["base-32px.svg"; "base-64px.svg"] "base.svg"
                           [16; 32; 48; 64; 256]%Z = inr calls
    /\ map snd calls = [16; 32; 48; 64; 256]%Z
    /\ Forall (fun call =>
                 exists c, In c inputs
                           /\ fst call = path c
                           /\ (snd call <= maximum_size c)%Z
                           /\ forall c', In c' inputs -> (snd call <= maximum_size c')%Z ->
                                         (maximum_size c <= maximum_size c')%Z)
              calls
    /\ concat (map snd (group_calls calls)) = [16; 32; 48; 64; 256]%Z.
Proof.
  apply render_calls_smallest_fit; [discriminate|reflexivity].
Defined.

(** The plan of the example of the specification. *)
Example render_plan_example :
  IcoPro.render_calls Py.posix_join "svg" ["base-32px.svg"; "base-64px.svg"] "base.svg"
                      [16; 32; 48; 64; 256]%Z
  = inr [("svg/base-32px.svg", 16); ("svg/base-32px.svg", 32); ("svg/base-64px.svg", 48);
         ("svg/base-64px.svg", 64); ("svg/base.svg", 256)]%Z.
Proof. reflexivity. Qed.

(** The loop advances once per size ([if], not [while]). On [inputs] built
    by lines 91-102 that is enough, every bound being a requested size; on
    an arbitrary list it is not: here 32 goes to the entry of bound 24. *)
Example single_advance_example :
  pop_and_render [{| path := "a-20px.svg"; maximum_size := 20 |};
                  {| path := "a-24px.svg"; maximum_size := 24 |};
                  {| path := "a.svg"; maximum_size := 32 |}] [16; 32]%Z
  = inr [("a-20px.svg", 16%Z); ("a-24px.svg", 32%Z)].
Proof. reflexivity. Qed.

(** ** Alternatives whose size is not requested *)

Lemma alt_inputs_ext (path_join : string -> string -> string) (input_folder : string)
      (alt alt' : list string) (base : string) (sizes : list Z) :
  (forall size, In size sizes ->
                Py.mem (IcoPro.variant_name base size) alt
                = Py.mem (IcoPro.variant_name base size) alt') ->
  forall inputs,
    IcoPro.alt_inputs path_join input_folder alt base sizes inputs
    = IcoPro.alt_inputs path_join input_folder alt' base sizes inputs.
Proof.
  induction sizes as [|size sizes IH]; intros Hmem inputs; simpl; [reflexivity|].
  rewrite (Hmem size) by now left.
  destruct (Py.mem _ alt'); simpl; apply IH; intros s Hs; apply Hmem; now right.
Qed.

(** C8, as the claim has it, fails: [logo-20px.svg] is an alternative of
    [logo.svg], 20 is not a requested size, and [inputs] holds the base
    file only. The same holds in a whole run on a folder with [logo.svg]
    and [logo#20px.svg], the name the script takes for an alternative. *)
Lemma unrequested_alternative_not_in_inputs :
  let alt := ["logo-20px.svg"] in
  let sizes := [16; 32]%Z in
  In (IcoPro.variant_name "logo.svg" 20) alt
  /\ ~ In 20%Z sizes
  /\ IcoPro.build_inputs Py.posix_join "svg" alt "logo.svg" sizes
     = inr [{| path := "svg/logo.svg"; maximum_size := 32 |}]
  /\ ~ In (Py.posix_join "svg" "logo-20px.svg")
          (map path [{| path := "svg/logo.svg"; maximum_size := 32 |}])
  /\ IcoPro.alt_filenames ["logo.svg"; "logo#20px.svg"] sizes = ["logo#20px.svg"]
  /\ IcoPro.convert_svg_to_ico Py.posix_join (fun p => p) "svg"
       ["logo.svg"; "logo#20px.svg"] sizes false
       {| rev_parse := inr ""; diff_names := inr []; diff_cached := inr [];
          ls_others := inr [] |}
     = inr [("logo.svg", [("svg/logo.svg", 16%Z); ("svg/logo.svg", 32%Z)])].
Proof.
  cbv zeta. repeat split.
  - now left.
  - intros [H|[H|[]]]; discriminate H.
  - intros [H|[]]. vm_compute in H. discriminate H.
Qed.

(** C8, amended. An alternative whose size is not among the requested sizes
    takes no part in the choice: [inputs] and the sources chosen are the
    same with the file and without it. *)
Theorem unrequested_alternative_ignored (path_join : string -> string -> string)
        (input_folder : string) (alt1 alt2 : list string) (base_filename : string)
        (sizes : list Z) (n : Z) :
  ~ In n sizes ->
  IcoPro.build_inputs path_join input_folder
    (alt1 ++ IcoPro.variant_name base_filename n :: alt2) base_filename sizes
  = IcoPro.build_inputs path_join input_folder (alt1 ++ alt2) base_filename sizes
  /\ IcoPro.render_calls path_join input_folder
       (alt1 ++ IcoPro.variant_name base_filename n :: alt2) base_filename sizes
     = IcoPro.render_calls path_join input_folder (alt1 ++ alt2) base_filename sizes.
Proof.
  intros Hn.
  assert (Hb : IcoPro.build_inputs path_join input_folder
                 (alt1 ++ IcoPro.variant_name base_filename n :: alt2) base_filename sizes
               = IcoPro.build_inputs path_join input_folder (alt1 ++ alt2) base_filename sizes).
  { unfold IcoPro.build_inputs. f_equal.
    rewrite (alt_inputs_ext _ _ _ (alt1 ++ alt2)); [reflexivity|].
    intros size Hs. apply mem_without. intros Heq.
    apply variant_name_inj in Heq. now subst. }
  split; [exact Hb|]. unfold IcoPro.render_calls. now rewrite Hb.
Qed.

Lemma unrequested_alternative_ignored_witness :
  IcoPro.build_inputs Py.posix_join "svg"
    (["logo-16px.svg"] ++ IcoPro.variant_name "logo.svg" 20 :: []) "logo.svg" [16; 32]%Z
  = IcoPro.build_inputs Py.posix_join "svg" (["logo-16px.svg"] ++ []) "logo.svg" [16; 32]%Z
  /\ IcoPro.render_calls Py.posix_join "svg"
       (["logo-16px.svg"] ++ IcoPro.variant_name "logo.svg" 20 :: []) "logo.svg" [16; 32]%Z
     = IcoPro.render_calls Py.posix_join "svg" (["logo-16px.svg"] ++ []) "logo.svg" [16; 32]%Z.
Proof.
  apply unrequested_alternative_ignored.
  intros [H|[H|[]]]; discriminate H.
Defined.

(** ** What the separator of [ends_with_px] costs *)

Lemma render_loop_single (input : source) (sizes : list Z) :
  Forall (fun s => (s <= maximum_size input)%Z) sizes ->
  IcoPro.render_loop input [] sizes = inr (map (fun s => (path input, s)) sizes).
Proof.
  induction 1 as [|s sizes Hs Hrest IH]; simpl; [reflexivity|].
  destruct (Z.gtb_spec s (maximum_size input)); [lia|]. simpl. now rewrite IH.
Qed.

(** With the alternatives the script computes, every size of every base
    file is rendered from the base file itself. *)
Lemma pipeline_renders_base_only (path_join : string -> string -> string)
      (input_folder : string) (listing : list string) (any_sizes : list Z)
      (base_filename : string) (sizes : list Z) :
  sizes <> [] ->
  ascending sizes = true ->
  IcoPro.render_calls path_join input_folder (IcoPro.alt_filenames listing any_sizes)
                      base_filename sizes
  = inr (map (fun s => (path_join input_folder base_filename, s)) sizes).
Proof.
  intros Hne Hasc.
  destruct (last_item_some sizes Hne) as [l [largest [Heq Hlast]]].
  pose proof (ascending_below_last sizes largest Hasc Hlast) as Hall.
  unfold IcoPro.render_calls.
  rewrite (build_inputs_closed _ _ _ _ _ largest Hlast).
  replace (alt_sources path_join input_folder (IcoPro.alt_filenames listing any_sizes)
                       base_filename sizes) with (@nil source).
  - simpl. now rewrite render_loop_single.
  - clear. induction sizes as [|s sizes IH]; [reflexivity|].
    rewrite alt_sources_cons, variant_never_alternative. exact IH.
Qed.

(** X5. With the alternatives the script computes, the [--changed] filter
    keeps a base file only when its own path is in the change set. *)
Lemma pipeline_filters_on_own_path (path_join : string -> string -> string)
      (normpath : string -> string) (input_folder : string)
      (listing : list string) (any_sizes : list Z) (changed_paths : list string)
      (sizes : list Z) (base_filenames : list string) :
  IcoPro.filter_loop path_join normpath input_folder
    (IcoPro.alt_filenames listing any_sizes) changed_paths sizes base_filenames []
  = filter (fun base => Py.mem (in_folder path_join normpath input_folder base) changed_paths)
           base_filenames.
Proof.
  rewrite filter_loop_filter, app_nil_l. apply filter_ext. intros base.
  replace (IcoPro.variant_changed _ _ _ _ _ base sizes) with false;
    [apply orb_false_r|].
  induction sizes as [|s sizes' IH]; simpl; [reflexivity|].
  now rewrite variant_never_alternative.
Qed.

(** The folder of the specification's resolver example, in a whole run:
    the two files meant as alternatives are converted as icons of their
    own, and [base.svg] is the source of all its sizes. *)
Example whole_run_example :
  IcoPro.convert_svg_to_ico Py.posix_join (fun p => p) "svg"
    ["base.svg"; "base-32px.svg"; "base-64px.svg"] [16; 32; 48; 64; 256]%Z false
    {| rev_parse := inr ""; diff_names := inr []; diff_cached := inr []; ls_others := inr [] |}
  = inr [("base-32px.svg",
          [("svg/base-32px.svg", 16); ("svg/base-32px.svg", 32); ("svg/base-32px.svg", 48);
           ("svg/base-32px.svg", 64); ("svg/base-32px.svg", 256)]);
         ("base-64px.svg",
          [("svg/base-64px.svg", 16); ("svg/base-64px.svg", 32); ("svg/base-64px.svg", 48);
           ("svg/base-64px.svg", 64); ("svg/base-64px.svg", 256)]);
         ("base.svg",
          [("svg/base.svg", 16); ("svg/base.svg", 32); ("svg/base.svg", 48);
           ("svg/base.svg", 64); ("svg/base.svg", 256)])]%Z.
Proof. reflexivity. Qed.

(** ** Whole runs *)

(** C7. With no size at all, [sizes[-1]] raises [IndexError] before any
    source is chosen: the resolution of a base file fails, and with it
    the run on any folder that holds an [.svg] file. *)
Theorem empty_sizes_raise (path_join : string -> string -> string)
        (normpath : string -> string) (input_folder : string)
        (alt_filenames : list string) (base_filename : string)
        (listing : list string) (git : git_queries) :
  IcoPro.build_inputs path_join input_folder alt_filenames base_filename [] = inl IndexError
  /\ IcoPro.render_calls path_join input_folder alt_filenames base_filename []
     = inl IndexError
  /\ IcoPro.convert_svg_to_ico path_join normpath input_folder listing [] false git
     = if existsb (fun f => Py.endswith (Py.lower f) ".svg") listing
       then inl IndexError else inr [].
Proof.
  split; [reflexivity|]. split; [reflexivity|].
  unfold IcoPro.convert_svg_to_ico. change (Py.sorted_int []) with (@nil Z).
  rewrite base_filenames_none. unfold IcoPro.changed_stage. simpl bind. simpl fst.
  destruct (existsb _ listing) eqn:Hsvg.
  - destruct (Py.sorted_str _) as [|f rest] eqn:Hsorted; [|reflexivity].
    apply sorted_nil in Hsorted.
    apply existsb_exists in Hsvg as [f [Hin Hf]].
    assert (Hfil : In f (filter (fun f => Py.endswith (Py.lower f) ".svg") listing))
      by (apply filter_In; now split).
    rewrite Hsorted in Hfil. destruct Hfil.
  - now rewrite (filter_none _ _ Hsvg).
Qed.

Lemma render_calls_total (path_join : string -> string -> string) (input_folder : string)
      (alt_filenames : list string) (base_filename : string) (sizes : list Z) :
  sizes <> [] ->
  ascending sizes = true ->
  exists calls,
    IcoPro.render_calls path_join input_folder alt_filenames base_filename sizes = inr calls
    /\ map snd calls = sizes.
Proof.
  intros Hne Hasc.
  destruct (last_item_some sizes Hne) as [l [largest [Heq Hlast]]].
  unfold IcoPro.render_calls. rewrite (build_inputs_closed _ _ _ _ _ largest Hlast).
  pose proof (ascending_below_last sizes largest Hasc Hlast) as Hall.
  simpl bind.
  destruct (alt_sources path_join input_folder alt_filenames base_filename sizes ++ _)
    as [|input inputs] eqn:Hin; [now destruct (alt_sources _ _ _ _ _)|].
  simpl. apply (render_loop_total largest); [assumption|].
  eexists _, _. split; [symmetry; exact Hin|reflexivity].
Qed.

Lemma render_all_total (path_join : string -> string -> string) (input_folder : string)
      (alt_filenames base_filenames : list string) (sizes : list Z) :
  sizes <> [] ->
  ascending sizes = true ->
  exists plans,
    IcoPro.render_all path_join input_folder alt_filenames base_filenames sizes = inr plans
    /\ map fst plans = base_filenames.
Proof.
  intros Hne Hasc. induction base_filenames as [|base rest [plans [Hplans Hfst]]]; simpl.
  - now exists [].
  - destruct (render_calls_total path_join input_folder alt_filenames base sizes Hne Hasc)
      as [calls [Hcalls _]].
    rewrite Hcalls, Hplans. simpl. eexists. split; [reflexivity|]. simpl. now rewrite Hfst.
Qed.

(** A full rebuild with at least one size never raises: every base file of
    the folder gets its calls, whatever the order of the sizes given. *)
Lemma convert_all_total (path_join : string -> string -> string)
      (normpath : string -> string) (input_folder : string)
      (listing : list string) (sizes : list Z) (git : git_queries) :
  sizes <> [] ->
  exists plans,
    IcoPro.convert_svg_to_ico path_join normpath input_folder listing sizes false git
    = inr plans
    /\ map fst plans = IcoPro.base_filenames listing (Py.sorted_int sizes).
Proof.
  intros Hne. unfold IcoPro.convert_svg_to_ico, IcoPro.changed_stage. simpl bind. simpl fst.
  apply render_all_total; [|apply sorted_int_ascending].
  intros Hnil. apply sorted_nil in Hnil. contradiction.
Qed.

(** ** The commit message (lines 170-218) *)

(** C5, as the claim has it, fails: the counting message ends with the
    word icons. *)
Lemma counting_message_ends_with_icons :
  IcoPro.git_commit_message Py.posix_basename "2026-11-04" None ["A  a.svg"; "M  b.svg"]
  = inr (Some "feat: add 1, update 1 icons")
  /\ IcoPro.git_commit_message Py.posix_basename "2026-11-04" None ["A  a.svg"; "M  b.svg"]
     <> inr (Some "feat: add 1, update 1").
Proof. split; [reflexivity|discriminate]. Qed.

(** C5, amended. When some icon file is added, modified or deleted and
    neither the single-add nor the single-update rule applies, the message
    is feat: followed by the clauses add n, update n, remove n of the
    non-zero counts, in that order and joined by commas, followed by the
    word icons. *)
Theorem counting_message (basename : string -> string) (today : string)
        (status_lines : list string) (st : status_lists) :
  IcoPro.read_status basename status_lines
    {| added_files := []; modified_files := []; deleted_files := [];
       all_changed_paths := [] |} = inr st ->
  let a := List.length (filter IcoPro.is_icon (added_files st)) in
  let m := List.length (filter IcoPro.is_icon (modified_files st)) in
  let d := List.length (filter IcoPro.is_icon (deleted_files st)) in
  (0 < a + m + d)%nat ->
  ~ (a = 1 /\ m = 0 /\ d = 0)%nat ->
  ~ (m = 1 /\ a = 0 /\ d = 0)%nat ->
  IcoPro.git_commit_message basename today None status_lines
  = inr (Some ("feat: "
               ++ String.concat ", " (count_clause "add" a ++ count_clause "update" m
                                      ++ count_clause "remove" d)
               ++ " icons")%string).
Proof.
  intros Hread a m d Hsome Hadd Hupdate.
  destruct status_lines as [|line rest].
  - simpl in Hread. injection Hread as <-. simpl in a, m, d. subst a m d. simpl in Hsome. lia.
  - unfold IcoPro.git_commit_message. rewrite Hread. simpl bind.
    unfold IcoPro.message_of, IcoPro.nonempty, count_clause, ret.
    fold a m d. clearbody a m d.
    destruct (Nat.eqb_spec a 0), (Nat.eqb_spec a 1), (Nat.eqb_spec m 0),
             (Nat.eqb_spec m 1), (Nat.eqb_spec d 0);
      cbn [negb andb orb app];
      try lia;
      try (exfalso; apply Hadd; lia);
      try (exfalso; apply Hupdate; lia);
      reflexivity.
Qed.

Lemma counting_message_witness :
  IcoPro.git_commit_message Py.posix_basename "2026-11-04" None
    ["A  svg/a.svg"; "M  svg/b.svg"; "D  ico/c.ico"; "D  ico/d.ico"; "M  README.md"]
  = inr (Some "feat: add 1, update 1, remove 2 icons").
Proof.
  pose proof (counting_message Py.posix_basename "2026-11-04"
                ["A  svg/a.svg"; "M  svg/b.svg"; "D  ico/c.ico"; "D  ico/d.ico"; "M  README.md"]
                {| added_files := ["a.svg"];
                   modified_files := ["b.svg"; "README.md"];
                   deleted_files := ["c.ico"; "d.ico"];
                   all_changed_paths := ["svg/a.svg"; "svg/b.svg"; "ico/c.ico"; "ico/d.ico";
                                         "README.md"] |}) as H.
  cbv zeta in H. apply H.
  - vm_compute. reflexivity.
  - vm_compute. lia.
  - vm_compute. intros [_ [H1 _]]. discriminate H1.
  - vm_compute. intros [_ [H2 _]]. discriminate H2.
Defined.

(** ** The two scripts *)

(** C10. On the same folder listing, sizes, git answers, status lines and
    date, [batch_convert_to_ico.py] and [batch_convert_to_ico_pro.py]
    compute the same classification, the same sources for every size, the
    same work list and the same commit message. *)
Theorem scripts_agree (path_join : string -> string -> string) (normpath : string -> string)
        (basename : string -> string) (today input_folder : string)
        (listing : list string) (sizes : list Z) (only_changed : bool) (git : git_queries)
        (base_filenames alt_filenames : list string) (base_filename : string)
        (message : option string) (status_lines : list string) :
  Ico.base_filenames listing sizes = IcoPro.base_filenames listing sizes
  /\ Ico.alt_filenames listing sizes = IcoPro.alt_filenames listing sizes
  /\ Ico.render_calls path_join input_folder alt_filenames base_filename sizes
     = IcoPro.render_calls path_join input_folder alt_filenames base_filename sizes
  /\ worklist (Ico.changed_stage path_join normpath input_folder only_changed git
                 base_filenames alt_filenames sizes)
     = worklist (IcoPro.changed_stage path_join normpath input_folder only_changed git
                   base_filenames alt_filenames sizes)
  /\ Ico.convert_svg_to_ico path_join normpath input_folder listing sizes only_changed git
     = IcoPro.convert_svg_to_ico path_join normpath input_folder listing sizes only_changed git
  /\ Ico.git_commit_message basename today message status_lines
     = IcoPro.git_commit_message basename today message status_lines.
Proof.
  assert (Hstage : forall base alt ss,
             worklist (Ico.changed_stage path_join normpath input_folder only_changed git
                         base alt ss)
             = worklist (IcoPro.changed_stage path_join normpath input_folder only_changed git
                           base alt ss)).
  { intros base alt ss. unfold Ico.changed_stage, IcoPro.changed_stage.
    destruct only_changed; [|reflexivity].
    destruct (rev_parse git) as [msg|out]; [reflexivity|].
    change (Ico.collect_changed path_join normpath)
      with (IcoPro.collect_changed path_join normpath).
    destruct (IcoPro.collect_changed _ _ _ _ _); reflexivity. }
  repeat split; try reflexivity.
  - apply Hstage.
  - unfold Ico.convert_svg_to_ico, IcoPro.convert_svg_to_ico.
    specialize (Hstage (IcoPro.base_filenames listing (Py.sorted_int sizes))
                       (IcoPro.alt_filenames listing (Py.sorted_int sizes))
                       (Py.sorted_int sizes)).
    change (Ico.base_filenames listing (Py.sorted_int sizes))
      with (IcoPro.base_filenames listing (Py.sorted_int sizes)).
    change (Ico.alt_filenames listing (Py.sorted_int sizes))
      with (IcoPro.alt_filenames listing (Py.sorted_int sizes)).
    unfold worklist, bind, ret in Hstage.
    destruct (Ico.changed_stage _ _ _ _ _ _ _ _) as [e|w],
             (IcoPro.changed_stage _ _ _ _ _ _ _ _) as [e'|w'];
      try discriminate Hstage.
    + injection Hstage as ->. reflexivity.
    + injection Hstage as Hw. unfold bind. now rewrite Hw.
Qed.

(** The scripts differ in the sizes used when none is given. *)
Example default_sizes_differ : Ico.default_sizes <> IcoPro.default_sizes.
Proof. discriminate. Qed.

(** ** Sizes: order and values *)

Lemma sorted_le_unique (l1 l2 : list Z) :
  StronglySorted Z.le l1 -> StronglySorted Z.le l2 -> Permutation l1 l2 -> l1 = l2.
Proof.
  intros H1. revert l2. induction H1 as [|a l1 Hs1 IH Ha]; intros l2 H2 Hperm.
  - apply Permutation_nil in Hperm. now subst.
  - destruct H2 as [|b l2 Hs2 Hb].
    + apply Permutation_sym, Permutation_nil in Hperm. discriminate.
    + assert (Hab : a = b).
      { rewrite Forall_forall in Ha, Hb.
        assert (Hina : In a (b :: l2)) by (apply (Permutation_in _ Hperm); now left).
        assert (Hinb : In b (a :: l1))
          by (apply (Permutation_in _ (Permutation_sym Hperm)); now left).
        destruct Hina as [->|Hina]; [reflexivity|].
        destruct Hinb as [->|Hinb]; [reflexivity|].
        specialize (Ha _ Hinb). specialize (Hb _ Hina). lia. }
      subst b. f_equal. apply IH; [assumption|].
      now apply Permutation_cons_inv in Hperm.
Qed.

Lemma sorted_int_perm (l1 l2 : list Z) :
  Permutation l1 l2 -> Py.sorted_int l1 = Py.sorted_int l2.
Proof.
  intros Hperm. apply sorted_le_unique.
  - apply ascending_Sorted, sorted_int_ascending.
  - apply ascending_Sorted, sorted_int_ascending.
  - unfold Py.sorted_int. now rewrite !sorted_perm.
Qed.

(** X3. The order in which the sizes are given has no effect: line 34 sorts
    them before anything else is done. *)
Theorem sizes_order_irrelevant (path_join : string -> string -> string)
        (normpath : string -> string) (input_folder : string) (listing : list string)
        (sizes sizes' : list Z) (only_changed : bool) (git : git_queries) :
  Permutation sizes sizes' ->
  IcoPro.convert_svg_to_ico path_join normpath input_folder listing sizes only_changed git
  = IcoPro.convert_svg_to_ico path_join normpath input_folder listing sizes' only_changed git.
Proof.
  intros Hperm. unfold IcoPro.convert_svg_to_ico. now rewrite (sorted_int_perm _ _ Hperm).
Qed.

Lemma sizes_order_irrelevant_witness :
  IcoPro.convert_svg_to_ico Py.posix_join (fun p => p) "svg" ["a.svg"; "b#16px.svg"]
    [256; 16; 48]%Z false
    {| rev_parse := inr ""; diff_names := inr []; diff_cached := inr []; ls_others := inr [] |}
  = IcoPro.convert_svg_to_ico Py.posix_join (fun p => p) "svg" ["a.svg"; "b#16px.svg"]
      [16; 48; 256]%Z false
      {| rev_parse := inr ""; diff_names := inr []; diff_cached := inr []; ls_others := inr [] |}.
Proof.
  apply sizes_order_irrelevant.
  apply (Permutation_cons_app [16; 48]%Z [] 256%Z). reflexivity.
Defined.

(** X2. The classification looks at how many sizes there are, never at their
    values: the loop variable of the two comprehensions is not used. *)
Theorem classification_ignores_size_values (listing : list string) (sizes sizes' : list Z) :
  List.length sizes = List.length sizes' ->
  IcoPro.base_filenames listing sizes = IcoPro.base_filenames listing sizes'
  /\ IcoPro.alt_filenames listing sizes = IcoPro.alt_filenames listing sizes'.
Proof.
  intros Hlen.
  destruct sizes as [|s [|s2 sizes]], sizes' as [|t [|t2 sizes']]; try discriminate Hlen.
  - split; reflexivity.
  - rewrite !base_filenames_many, !alt_filenames_one. split; reflexivity.
  - rewrite !base_filenames_many, !alt_filenames_many. split; reflexivity.
Qed.

Lemma classification_ignores_size_values_witness :
  IcoPro.base_filenames ["a.svg"; "a#16px.svg"; "a#999px.svg"] [16; 32]%Z
  = IcoPro.base_filenames ["a.svg"; "a#16px.svg"; "a#999px.svg"] [1; 2]%Z
  /\ IcoPro.alt_filenames ["a.svg"; "a#16px.svg"; "a#999px.svg"] [16; 32]%Z
     = IcoPro.alt_filenames ["a.svg"; "a#16px.svg"; "a#999px.svg"] [1; 2]%Z.
Proof.
  apply classification_ignores_size_values. reflexivity.
Defined.

(** ** The change set (lines 53-61) *)

Section ChangeSet.
Variable path_join : string -> string -> string.
Variable normpath : string -> string.
Variable repo_root : string.

Lemma add_lines_closed (lines changed_paths : list string) :
  IcoPro.add_lines path_join normpath repo_root lines changed_paths
  = changed_paths
    ++ map (fun line => normpath (path_join repo_root (Py.strip line)))
           (filter (fun line => negb (Py.strip line =? "")) lines).
Proof.
  revert changed_paths. induction lines as [|line lines IH]; intros acc; simpl.
  - now rewrite app_nil_r.
  - destruct (Py.strip line =? ""); simpl.
    + apply IH.
    + rewrite IH, <- app_assoc. reflexivity.
Qed.

Lemma collect_changed_all (outputs : list (list string)) (changed_paths : list string) :
  IcoPro.collect_changed path_join normpath repo_root (map inr outputs) changed_paths
  = inr (changed_paths
         ++ map (fun line => normpath (path_join repo_root (Py.strip line)))
                (filter (fun line => negb (Py.strip line =? "")) (concat outputs))).
Proof.
  revert changed_paths. induction outputs as [|lines outputs IH]; intros acc; simpl.
  - now rewrite app_nil_r.
  - rewrite IH, add_lines_closed, filter_app, map_app, app_assoc. reflexivity.
Qed.

(** X6. When the three listing commands return, the change set holds one path
    per line that is not blank, of the unstaged, then the staged, then the
    untracked files: the line without the white space around it, joined to
    the repository root and normalized. *)
Theorem change_set_of_outputs (unstaged staged untracked : list string) :
  IcoPro.collect_changed path_join normpath repo_root
    [inr unstaged; inr staged; inr untracked] []
  = inr (map (fun line => normpath (path_join repo_root (Py.strip line)))
             (filter (fun line => negb (Py.strip line =? ""))
                     (unstaged ++ staged ++ untracked))).
Proof.
  pose proof (collect_changed_all [unstaged; staged; untracked] []) as H.
  simpl in H. now rewrite app_nil_r in H.
Qed.

(** X7. Collecting the change set fails exactly when some command raised, and
    then with the message of the first that did: the commands after it are
    not run. *)
Theorem change_set_first_failure (outputs : list (string + list string))
        (changed_paths : list string) (msg : string) :
  IcoPro.collect_changed path_join normpath repo_root outputs changed_paths = inl msg
  <-> exists before after, outputs = map inr before ++ inl msg :: after.
Proof.
  split.
  - revert changed_paths. induction outputs as [|[m|lines] outputs IH]; intros acc; simpl.
    + discriminate.
    + intros [= ->]. now exists [], outputs.
    + intros H. destruct (IH _ H) as [before [after ->]].
      now exists (lines :: before), after.
  - intros [before [after ->]]. revert changed_paths.
    induction before as [|lines before IH]; intros acc; simpl; [reflexivity|apply IH].
Qed.
End ChangeSet.

(** ** The work list of a run *)

Lemma filter_all {A : Type} (l : list A) : filter (fun _ => true) l = l.
Proof.
  induction l as [|x l IH]; simpl; [reflexivity|now rewrite IH].
Qed.

(** X8. Whatever git answers, the [only_changed] block never adds a file to the
    work list and never reorders it: when it returns, the work list is the
    list of base files with some of them left out. *)
Theorem work_list_is_filtered (path_join : string -> string -> string)
        (normpath : string -> string) (input_folder : string) (only_changed : bool)
        (git : git_queries) (base_filenames alt_filenames : list string) (sizes : list Z)
        (work printed : list string) :
  IcoPro.changed_stage path_join normpath input_folder only_changed git base_filenames
    alt_filenames sizes = inr (work, printed) ->
  exists keep : string -> bool, work = filter keep base_filenames.
Proof.
  unfold IcoPro.changed_stage.
  destruct only_changed.
  - destruct (rev_parse git) as [m|out]; [discriminate|].
    destruct (IcoPro.collect_changed _ _ _ _ _) as [m|paths]; intros [= <- _].
    + exists (fun _ => true). now rewrite filter_all.
    + eexists. apply (filter_loop_filter _ _ _ _ _ _ base_filenames []).
  - intros [= <- _]. exists (fun _ => true). now rewrite filter_all.
Qed.

Lemma work_list_is_filtered_witness :
  exists keep : string -> bool, ["b.svg"] = filter keep ["a.svg"; "b.svg"; "c.svg"].
Proof.
  apply (work_list_is_filtered Py.posix_join (fun p => p) "/r/svg" true
           {| rev_parse := inr "/r"; diff_names := inr ["svg/b.svg"; "  "];
              diff_cached := inr []; ls_others := inr ["notes.txt"] |}
           ["a.svg"; "b.svg"; "c.svg"] [] [16; 32]%Z ["b.svg"] []).
  reflexivity.
Defined.

(** X9. When [git rev-parse] has answered and one of the three listing commands
    raises, filtering is given up: the work list is the full list of base
    files, and the repository root and a warning are printed. *)
Theorem later_query_failure_keeps_work_list (path_join : string -> string -> string)
        (normpath : string -> string) (input_folder : string) (git : git_queries)
        (base_filenames alt_filenames : list string) (sizes : list Z) (out : string) :
  rev_parse git = inr out ->
  (exists m, diff_names git = inl m \/ diff_cached git = inl m \/ ls_others git = inl m) ->
  exists msg,
    IcoPro.changed_stage path_join normpath input_folder true git base_filenames
      alt_filenames sizes
    = inr (base_filenames,
           [("repo_root: " ++ Py.strip out)%string;
            ("Warning: Failed to filter changed files: " ++ msg)%string]).
Proof.
  intros Hroot [m Hfail]. unfold IcoPro.changed_stage. rewrite Hroot.
  destruct (IcoPro.collect_changed _ _ _ _ _) as [msg|paths] eqn:Hc; [now exists msg|].
  exfalso. revert Hc. simpl.
  destruct (diff_names git) as [m1|l1]; [discriminate|].
  destruct (diff_cached git) as [m2|l2]; [discriminate|].
  destruct (ls_others git) as [m3|l3]; [discriminate|].
  destruct Hfail as [H|[H|H]]; discriminate H.
Qed.

Lemma later_query_failure_keeps_work_list_witness :
  exists msg,
    IcoPro.changed_stage Py.posix_join (fun p => p) "/r/svg" true
      {| rev_parse := inr "/r"; diff_names := inr ["svg/b.svg"];
         diff_cached := inl "exit status 128"; ls_others := inr [] |}
      ["a.svg"; "b.svg"] [] [16; 32]%Z
    = inr (["a.svg"; "b.svg"],
           [("repo_root: " ++ Py.strip "/r")%string;
            ("Warning: Failed to filter changed files: " ++ msg)%string]).
Proof.
  apply later_query_failure_keeps_work_list; [reflexivity|].
  exists "exit status 128". right. left. reflexivity.
Defined.

Lemma changed_stage_raise_cases (path_join : string -> string -> string)
      (normpath : string -> string) (input_folder : string) (only_changed : bool)
      (git : git_queries) (base_filenames alt_filenames : list string) (sizes : list Z)
      (e : exn) :
  IcoPro.changed_stage path_join normpath input_folder only_changed git base_filenames
    alt_filenames sizes = inl e ->
  e = UnboundLocalError /\ only_changed = true /\ exists msg, rev_parse git = inl msg.
Proof.
  unfold IcoPro.changed_stage.
  destruct only_changed; [|discriminate].
  destruct (rev_parse git) as [msg|out].
  - intros [= <-]. repeat split. now exists msg.
  - destruct (IcoPro.collect_changed _ _ _ _ _); discriminate.
Qed.

Lemma render_all_sorted_returns (path_join : string -> string -> string)
      (input_folder : string) (alt_filenames work : list string) (sizes : list Z) (e : exn) :
  sizes <> [] ->
  IcoPro.render_all path_join input_folder alt_filenames work (Py.sorted_int sizes) <> inl e.
Proof.
  intros Hne Hraise.
  destruct (render_all_total path_join input_folder alt_filenames work (Py.sorted_int sizes))
    as [plans [Hplans _]].
  - intros Hnil. apply sorted_nil in Hnil. contradiction.
  - apply sorted_int_ascending.
  - rewrite Hplans in Hraise. discriminate.
Qed.

(** X10. With at least one size, the only exception [convert_svg_to_ico]
    raises by itself (a folder that cannot be listed and a program that
    cannot be started apart) is the [UnboundLocalError] of a run with
    [only_changed] in which [git rev-parse] raised: no [IndexError] is
    possible. *)
Theorem convert_raises_only_without_repo_root (path_join : string -> string -> string)
        (normpath : string -> string) (input_folder : string) (listing : list string)
        (sizes : list Z) (only_changed : bool) (git : git_queries) (e : exn) :
  sizes <> [] ->
  IcoPro.convert_svg_to_ico path_join normpath input_folder listing sizes only_changed git
  = inl e ->
  e = UnboundLocalError /\ only_changed = true /\ exists msg, rev_parse git = inl msg.
Proof.
  intros Hne. unfold IcoPro.convert_svg_to_ico.
  destruct (IcoPro.changed_stage _ _ _ _ _ _ _ _) as [e'|work] eqn:Hstage; simpl.
  - intros [= <-]. exact (changed_stage_raise_cases _ _ _ _ _ _ _ _ _ Hstage).
  - intros Hraise. now apply render_all_sorted_returns in Hraise.
Qed.

Lemma convert_raises_only_without_repo_root_witness :
  UnboundLocalError = UnboundLocalError /\ true = true
  /\ exists msg,
       rev_parse {| rev_parse := inl "not a git repository"; diff_names := inr [];
                    diff_cached := inr []; ls_others := inr [] |} = inl msg.
Proof.
  apply (convert_raises_only_without_repo_root Py.posix_join (fun p => p) "svg"
           ["a.svg"] [16; 32]%Z true
           {| rev_parse := inl "not a git repository"; diff_names := inr [];
              diff_cached := inr []; ls_others := inr [] |} UnboundLocalError).
  - discriminate.
  - reflexivity.
Defined.

(** ** Reading the status (lines 176-193) *)

Lemma read_status_counts (basename : string -> string) (lines : list string) :
  forall st0,
    match IcoPro.read_status basename lines st0 with
    | inl e => e = IndexError /\ In EmptyString lines
    | inr st =>
        ~ In EmptyString lines
        /\ List.length (all_changed_paths st)
           = (List.length (all_changed_paths st0) + List.length lines)%nat
        /\ (List.length (added_files st) + List.length (modified_files st)
            + List.length (deleted_files st)
            <= List.length (added_files st0) + List.length (modified_files st0)
               + List.length (deleted_files st0) + List.length lines)%nat
    end.
Proof.
  induction lines as [|line lines IH]; intros st0.
  - simpl. repeat split; [tauto|lia|lia].
  - destruct line as [|c rest]; [simpl; split; [reflexivity|now left]|].
    cbn [IcoPro.read_status].
    match goal with
    | |- context [IcoPro.read_status basename lines ?st1] =>
        specialize (IH st1); destruct (IcoPro.read_status basename lines st1) as [e|st]
    end.
    + destruct IH as [-> Hin]. split; [reflexivity|now right].
    + destruct IH as [Hnot [Hpaths Hcount]]. split; [|split].
      * intros [H|H]; [discriminate|contradiction].
      * rewrite Hpaths.
        destruct (Ascii.eqb c "A"), (Ascii.eqb c "M" || Ascii.eqb c "R"), (Ascii.eqb c "D");
          cbn [all_changed_paths]; rewrite length_app; simpl; lia.
      * destruct (Ascii.eqb c "A"), (Ascii.eqb c "M" || Ascii.eqb c "R"), (Ascii.eqb c "D");
          cbn [added_files modified_files deleted_files] in Hcount;
          rewrite ?length_app in Hcount; simpl in *; lia.
Qed.

(** X14. Reading the status raises, with [IndexError] from [line[0]], exactly
    when one of its lines is empty. Otherwise every line gives one entry of
    [all_changed_paths] and goes to at most one of the lists of added,
    modified and deleted files. *)
Theorem read_status_lines (basename : string -> string) (status_lines : list string) :
  match IcoPro.read_status basename status_lines
          {| added_files := []; modified_files := []; deleted_files := [];
             all_changed_paths := [] |} with
  | inl e => e = IndexError /\ In EmptyString status_lines
  | inr st =>
      ~ In EmptyString status_lines
      /\ List.length (all_changed_paths st) = List.length status_lines
      /\ (List.length (added_files st) + List.length (modified_files st)
          + List.length (deleted_files st) <= List.length status_lines)%nat
  end.
Proof.
  pose proof (read_status_counts basename status_lines
                {| added_files := []; modified_files := []; deleted_files := [];
                   all_changed_paths := [] |}) as H.
  destruct (IcoPro.read_status _ _ _); exact H.
Qed.

(** ** The kind of the message (lines 195-218) *)

Lemma prefix_append (a b : string) : prefix a (a ++ b) = true.
Proof.
  induction a as [|c a IH]; simpl.
  - now destruct b.
  - destruct (ascii_dec c c); [exact IH|contradiction].
Qed.

(** X15. The message starts with feat: exactly when some icon file, [.svg] or
    [.ico], is among the added, modified or deleted files; otherwise it is
    one of the docs:, ci: and chore: messages. *)
Theorem feat_iff_icon_change (today : string) (st : status_lists) :
  prefix "feat: " (IcoPro.message_of today st)
  = IcoPro.nonempty (filter IcoPro.is_icon (added_files st))
    || IcoPro.nonempty (filter IcoPro.is_icon (modified_files st))
    || IcoPro.nonempty (filter IcoPro.is_icon (deleted_files st)).
Proof.
  unfold IcoPro.message_of.
  destruct (IcoPro.nonempty (filter IcoPro.is_icon (added_files st))
            || IcoPro.nonempty (filter IcoPro.is_icon (modified_files st))
            || IcoPro.nonempty (filter IcoPro.is_icon (deleted_files st))).
  - destruct (_ && _ && _); [apply (prefix_append "feat: " ("add " ++ _))|].
    destruct (_ && _ && _); [apply (prefix_append "feat: " ("update " ++ _))|].
    apply (prefix_append "feat: ").
  - destruct (existsb _ _); [reflexivity|]. destruct (existsb _ _); reflexivity.
Qed.

(** X16. The message for a status of one line whose file is an icon: add or
    update with the file name when the line is staged as added, or as
    modified or renamed; a count for a deletion; for any other status
    letter (untracked, unstaged) the icon is not counted and the message is
    one of those for other files. *)
Theorem one_icon_line_message (basename : string -> string) (today : string)
        (staged_status : ascii) (rest : string) :
  let line := String staged_status rest in
  let path_info := Py.strip_chars [Py.dquote] (Py.strip (Py.drop_first 3 line)) in
  let path := if Ascii.eqb staged_status "R"
              then Py.split_head " -> " path_info else path_info in
  IcoPro.is_icon (basename path) = true ->
  IcoPro.git_commit_message basename today None [line]
  = inr (Some (if Ascii.eqb staged_status "A" then ("feat: add " ++ basename path)%string
               else if Ascii.eqb staged_status "M" || Ascii.eqb staged_status "R"
                    then ("feat: update " ++ basename path)%string
               else if Ascii.eqb staged_status "D" then "feat: remove 1 icons"
               else if Py.endswith path ".md" then "docs: update documentation"
               else if Py.contains ".github" path then "ci: update workflow"
               else ("chore: update files " ++ today)%string)).
Proof.
  intros line path_info path Hicon.
  unfold IcoPro.git_commit_message, line. cbn [IcoPro.read_status].
  fold line. fold path_info. fold path. simpl bind. unfold ret. do 2 f_equal.
  unfold IcoPro.message_of.
  destruct (Ascii.eqb staged_status "A");
    [cbn; rewrite Hicon; reflexivity|].
  destruct (Ascii.eqb staged_status "M" || Ascii.eqb staged_status "R");
    [cbn; rewrite Hicon; reflexivity|].
  destruct (Ascii.eqb staged_status "D");
    [cbn; rewrite Hicon; reflexivity|].
  cbn. now rewrite !orb_false_r.
Qed.

Lemma one_icon_line_message_witness :
  IcoPro.git_commit_message Py.posix_basename "2026-11-04" None
    [String "R" "  svg/new name.svg -> svg/old.svg"]
  = inr (Some "feat: update new name.svg").
Proof.
  apply (one_icon_line_message Py.posix_basename "2026-11-04" "R"
           "  svg/new name.svg -> svg/old.svg").
  reflexivity.
Defined.

(** ** One git sync (lines 156-232) *)

Section GitSync.
Variable basename : string -> string.
Variable today : string.
Variable repo_path : string.
Variable message : option string.
Variable env : git_sync.
Variable cwd : string.

(** X17. The working directory is put back only when the sync ends with a push
    or with nothing to commit. When anything fails after [os.chdir], the
    [os.chdir(original_cwd)] of line 228 is skipped and the process stays
    in [repo_path]. *)
Theorem sync_working_directory :
  cwd_after (IcoProRun.git_commit_and_push basename today repo_path message env cwd)
  = match outcome (IcoProRun.git_commit_and_push basename today repo_path message env cwd)
    with
    | Pushed _ | NothingToCommit => cwd
    | GitError | OtherError => if chdir_ok env then repo_path else cwd
    end.
Proof.
  unfold IcoProRun.git_commit_and_push.
  destruct (chdir_ok env); [|reflexivity]. simpl negb. cbv iota.
  destruct (add_run env); try reflexivity.
  destruct (status_run env) as [status_lines|]; [|reflexivity].
  destruct (IcoPro.git_commit_message _ _ _ _) as [e|[m|]]; try reflexivity.
  destruct (commit_run env); try reflexivity.
  destruct (push_run env); reflexivity.
Qed.

(** X18. A sync ends with a push of message [m] exactly when [os.chdir] and the
    three checked commands return and [m] is the message for the status;
    the commands run are then add, status, commit with [m], push. *)
Theorem sync_pushes_iff (m : string) :
  outcome (IcoProRun.git_commit_and_push basename today repo_path message env cwd)
  = Pushed m
  <-> chdir_ok env = true /\ add_run env = Returned /\ commit_run env = Returned
      /\ push_run env = Returned
      /\ exists status_lines,
           status_run env = Some status_lines
           /\ IcoPro.git_commit_message basename today message status_lines
              = inr (Some m)
           /\ commands (IcoProRun.git_commit_and_push basename today repo_path message
                          env cwd)
              = [["git"; "add"; "."]; ["git"; "status"; "--porcelain"];
                 ["git"; "commit"; "-m"; m]; ["git"; "push"]].
Proof.
  unfold IcoProRun.git_commit_and_push. split.
  - destruct (chdir_ok env); [|discriminate]. simpl negb. cbv iota.
    destruct (add_run env); try discriminate.
    destruct (status_run env) as [status_lines|]; [|discriminate].
    destruct (IcoPro.git_commit_message _ _ _ _) as [e|[m'|]] eqn:Hm; try discriminate.
    destruct (commit_run env); try discriminate.
    destruct (push_run env); try discriminate.
    simpl. intros [= ->]. repeat split. exists status_lines. now repeat split.
  - intros [-> [-> [-> [-> [status_lines [-> [-> _]]]]]]]. reflexivity.
Qed.

(** X19. No commit is made, and nothing is pushed, when the status is empty. *)
Theorem sync_never_commits_nothing :
  status_run env = Some [] ->
  Forall (fun command =>
            command = ["git"; "add"; "."] \/ command = ["git"; "status"; "--porcelain"])
         (commands (IcoProRun.git_commit_and_push basename today repo_path message env cwd)).
Proof.
  intros Hstatus. unfold IcoProRun.git_commit_and_push. rewrite Hstatus.
  destruct (chdir_ok env); simpl; [|apply Forall_nil].
  destruct (add_run env); simpl; repeat (apply Forall_cons; [auto|]); apply Forall_nil.
Qed.
End GitSync.

Lemma sync_never_commits_nothing_witness :
  Forall (fun command =>
            command = ["git"; "add"; "."] \/ command = ["git"; "status"; "--porcelain"])
         (commands (IcoProRun.git_commit_and_push Py.posix_basename "2026-11-04" "/r/Folder11"
                      (Some "chore: sync")
                      {| chdir_ok := true; add_run := Returned; status_run := Some [];
                         commit_run := Returned; push_run := Returned |} "/r/Folder11/svg")).
Proof.
  apply sync_never_commits_nothing. reflexivity.
Defined.

(** ** Steps 1 and 2 for one base file (lines 104-149) *)

Lemma render_loop_sizes (sizes : list Z) :
  forall input inputs calls,
    IcoPro.render_loop input inputs sizes = inr calls -> map snd calls = sizes.
Proof.
  induction sizes as [|s sizes IH]; intros input inputs calls; simpl.
  - now intros [= <-].
  - destruct (if (s >? maximum_size input)%Z then pop0 inputs else ret (input, inputs))
      as [e|st]; simpl; [discriminate|].
    destruct (IcoPro.render_loop (fst st) (snd st) sizes) as [e|calls'] eqn:Hloop; simpl;
      [discriminate|].
    intros [= <-]. simpl. f_equal. now apply (IH _ _ _ Hloop).
Qed.

Lemma map_nth_seq {A : Type} (l : list A) (d : A) :
  map (fun i => nth i l d) (seq 0 (List.length l)) = l.
Proof.
  induction l as [|x l IH]; simpl; [reflexivity|].
  f_equal. rewrite <- seq_shift, map_map. exact IH.
Qed.

Lemma combine_map_r {A B C : Type} (f : B -> C) (l : list A) (l' : list B) :
  combine l (map f l') = map (fun ab => (fst ab, f (snd ab))) (combine l l').
Proof.
  revert l'. induction l as [|a l IH]; intros [|b l']; simpl; try reflexivity.
  now rewrite IH.
Qed.

Lemma NoDup_map_injective {A B : Type} (f : A -> B) (l : list A) :
  (forall x y, f x = f y -> x = y) -> NoDup l -> NoDup (map f l).
Proof.
  intros Hinj. induction 1 as [|x l Hnotin Hl IH]; simpl; constructor; [|exact IH].
  intros Hin. apply in_map_iff in Hin as [y [Heq Hy]].
  apply Hinj in Heq. now subst.
Qed.

Lemma map_snd_combine {A B : Type} (l : list A) (l' : list B) :
  List.length l' = List.length l -> map snd (combine l l') = l'.
Proof.
  revert l'. induction l as [|a l IH]; intros [|b l'] Hlen; simpl in *;
    try discriminate; [reflexivity|].
  f_equal. apply IH. now injection Hlen.
Qed.

Section Steps.
Variable path_join : string -> string -> string.
Variable splitext_root : string -> string.
Variable input_folder output_folder temp_pngs : string.

Lemma step1_loop_calls (throughput_paths : list string) (suffix : list Z) :
  forall (done : list Z) (input : source) (inputs : list source),
    IcoProRun.step1_loop (done ++ suffix) throughput_paths input inputs
      (seq (List.length done) (List.length suffix))
    = (calls <- IcoPro.render_loop input inputs suffix ;;
       ret (map (fun ci => IcoProRun.resize_command (fst (fst ci)) (snd (fst ci))
                             (nth (snd ci) throughput_paths ""))
                (combine calls (seq (List.length done) (List.length calls))))).
Proof.
  induction suffix as [|s suffix IH]; intros done input inputs; simpl; [reflexivity|].
  rewrite nth_middle.
  destruct (if (s >? maximum_size input)%Z then pop0 inputs else ret (input, inputs))
    as [e|st]; simpl; [reflexivity|].
  replace (done ++ s :: suffix) with ((done ++ [s]) ++ suffix)
    by (now rewrite <- app_assoc).
  replace (S (List.length done)) with (List.length (done ++ [s]))
    by (rewrite length_app; simpl; lia).
  rewrite IH.
  destruct (IcoPro.render_loop (fst st) (snd st) suffix) as [e|calls]; simpl; [reflexivity|].
  rewrite length_app. simpl. now rewrite Nat.add_1_r.
Qed.

Lemma step1_loop_closed (sizes : list Z) (throughput_paths : list string)
      (input : source) (inputs : list source) :
  List.length throughput_paths = List.length sizes ->
  IcoProRun.step1_loop sizes throughput_paths input inputs (seq 0 (List.length sizes))
  = (calls <- IcoPro.render_loop input inputs sizes ;;
     ret (map (fun ct => IcoProRun.resize_command (fst (fst ct)) (snd (fst ct)) (snd ct))
              (combine calls throughput_paths))).
Proof.
  intros Htps.
  pose proof (step1_loop_calls throughput_paths sizes [] input inputs) as Hloop.
  simpl in Hloop. rewrite Hloop.
  destruct (IcoPro.render_loop input inputs sizes) as [e|calls] eqn:Hcalls; simpl;
    [reflexivity|].
  unfold ret. f_equal.
  apply render_loop_sizes in Hcalls.
  assert (Hlen : List.length calls = List.length sizes)
    by (now rewrite <- Hcalls, length_map).
  rewrite Hlen, <- Htps.
  transitivity
    (map (fun ct => IcoProRun.resize_command (fst (fst ct)) (snd (fst ct)) (snd ct))
         (combine calls (map (fun i => nth i throughput_paths "")
                             (seq 0 (List.length throughput_paths))))).
  - rewrite combine_map_r, map_map. reflexivity.
  - now rewrite map_nth_seq.
Qed.

Lemma throughput_paths_length (base_filename : string) (sizes : list Z) :
  List.length (IcoProRun.throughput_paths path_join temp_pngs base_filename sizes)
  = List.length sizes.
Proof. unfold IcoProRun.throughput_paths. now rewrite length_map, length_seq. Qed.

(** X11. The [magick] calls of step 1 are the (source, size) choices of
    [render_calls], in order, the call for the i-th size writing the i-th
    path of [throughput_paths]; step 2 is given these paths, then the
    [.ico] path. Any exception is the one of the choice of sources. *)
Theorem convert_one_commands (alt_filenames : list string) (base_filename : string)
        (sizes : list Z) :
  IcoProRun.convert_one path_join splitext_root input_folder output_folder temp_pngs
    alt_filenames base_filename sizes
  = (calls <- IcoPro.render_calls path_join input_folder alt_filenames base_filename sizes ;;
     ret (map (fun ct => IcoProRun.resize_command (fst (fst ct)) (snd (fst ct)) (snd ct))
              (combine calls
                       (IcoProRun.throughput_paths path_join temp_pngs base_filename sizes)),
          IcoProRun.pack_command path_join splitext_root output_folder base_filename
            (IcoProRun.throughput_paths path_join temp_pngs base_filename sizes))).
Proof.
  unfold IcoProRun.convert_one, IcoPro.render_calls.
  destruct (IcoPro.build_inputs _ _ _ _ _) as [e|inputs]; simpl; [reflexivity|].
  destruct (pop0 inputs) as [e|st]; simpl; [reflexivity|].
  rewrite step1_loop_closed by apply throughput_paths_length.
  now destruct (IcoPro.render_loop (fst st) (snd st) sizes).
Qed.

(** X12. When the conversion of a base file goes through, step 1 makes one
    [magick] call per size and step 2 packs exactly the PNG files these
    calls wrote, in the order of the sizes. *)
Theorem step2_packs_step1_outputs (alt_filenames : list string) (base_filename : string)
        (sizes : list Z) (resizes : list (list string)) (pack : list string) :
  IcoProRun.convert_one path_join splitext_root input_folder output_folder temp_pngs
    alt_filenames base_filename sizes = inr (resizes, pack) ->
  List.length resizes = List.length sizes
  /\ pack = ["magick"; "-background"; "transparent"]
            ++ map (fun command => last command "") resizes
            ++ [path_join output_folder (splitext_root base_filename ++ ".ico")%string].
Proof.
  unfold IcoProRun.convert_one.
  destruct (IcoPro.build_inputs _ _ _ _ _) as [e|inputs]; simpl; [discriminate|].
  destruct (pop0 inputs) as [e|st]; simpl; [discriminate|].
  rewrite step1_loop_closed by apply throughput_paths_length.
  destruct (IcoPro.render_loop (fst st) (snd st) sizes) as [e|calls] eqn:Hcalls; simpl;
    [discriminate|].
  intros [= <- <-].
  assert (Hlen : List.length calls = List.length sizes)
    by (apply render_loop_sizes in Hcalls; now rewrite <- Hcalls, length_map).
  set (tps := IcoProRun.throughput_paths path_join temp_pngs base_filename sizes).
  assert (Htps : List.length tps = List.length calls)
    by (unfold tps; now rewrite throughput_paths_length).
  split.
  - rewrite length_map, length_combine, Htps, Nat.min_id. exact Hlen.
  - unfold IcoProRun.pack_command. rewrite map_map.
    rewrite (map_ext _ snd) by reflexivity.
    now rewrite map_snd_combine.
Qed.

(** X13. The names of the PNG files of one base file, stem-<index>.png, are
    pairwise distinct, and [throughput_paths] joins each to the temporary
    folder: no call of step 1 writes the file of another size. *)
Theorem throughput_names_distinct (base_filename : string) (sizes : list Z) :
  let names :=
    map (fun size_index =>
           (Py.drop_last 4 base_filename ++ "-" ++ Py.str_of_len size_index ++ ".png")%string)
        (seq 0 (List.length sizes)) in
  NoDup names
  /\ IcoProRun.throughput_paths path_join temp_pngs base_filename sizes
     = map (path_join temp_pngs) names.
Proof.
  cbv zeta. split.
  - apply NoDup_map_injective; [|apply seq_NoDup].
    intros i j Heq.
    apply append_cancel_l, append_cancel_l, append_cancel_r in Heq.
    unfold Py.str_of_len in Heq.
    apply DecimalNat.Unsigned.to_uint_inj.
    assert (Hnn : forall n, Nat.to_uint n <> Nil).
    { intros n Hn. pose proof (DecimalNat.Unsigned.of_to n) as Hof.
      rewrite Hn in Hof. simpl in Hof. subst n. discriminate Hn. }
    apply (f_equal NilZero.uint_of_string) in Heq.
    rewrite !NilZero.usu in Heq by apply Hnn. now injection Heq.
  - unfold IcoProRun.throughput_paths. now rewrite map_map.
Qed.
End Steps.

Lemma step2_packs_step1_outputs_witness :
  List.length [["magick"; "-background"; "transparent"; "svg/a.svg"; "-resize"; "16x16";
                "tmp/a-0.png"];
               ["magick"; "-background"; "transparent"; "svg/a.svg"; "-resize"; "32x32";
                "tmp/a-1.png"]]
  = List.length [16; 32]%Z
  /\ ["magick"; "-background"; "transparent"; "tmp/a-0.png"; "tmp/a-1.png"; "out/a.ico"]
     = ["magick"; "-background"; "transparent"]
       ++ map (fun command => last command "")
              [["magick"; "-background"; "transparent"; "svg/a.svg"; "-resize"; "16x16";
                "tmp/a-0.png"];
               ["magick"; "-background"; "transparent"; "svg/a.svg"; "-resize"; "32x32";
                "tmp/a-1.png"]]
       ++ [Py.posix_join "out" (PyMain.posix_splitext_root "a.svg" ++ ".ico")%string].
Proof.
  apply (step2_packs_step1_outputs Py.posix_join PyMain.posix_splitext_root "svg" "out" "tmp"
           [] "a.svg" [16; 32]%Z).
  reflexivity.
Defined.

(** ** The command line of batch_convert_to_ico_pro.py (lines 236-287) *)

Lemma index_of_first (x : string) (before after : list string) :
  ~ In x before -> PyMain.index_of x (before ++ x :: after) = List.length before.
Proof.
  induction before as [|y before IH]; simpl; intros Hnot.
  - now rewrite String.eqb_refl.
  - destruct (String.eqb_spec x y) as [->|_]; [exfalso; apply Hnot; now left|].
    f_equal. apply IH. intros Hin. apply Hnot. now right.
Qed.

Lemma mem_middle (x : string) (before after : list string) :
  Py.mem x (before ++ x :: after) = true.
Proof. apply mem_In, in_elt. Qed.

(** X20. The folder of [--strict] is whatever follows the first [--strict]
    of the command line, another option included; the script exits with
    status 1 when nothing follows it. *)
Theorem strict_takes_next_argument (before after : list string) :
  ~ In "--strict" before ->
  IcoProMain.strict_folder (before ++ "--strict" :: after)
  = match after with
    | [] => Exit 1
    | folder :: _ => Started (Some folder)
    end.
Proof.
  intros Hnot. unfold IcoProMain.strict_folder.
  rewrite mem_middle, index_of_first by assumption.
  rewrite nth_error_app2 by lia.
  replace (List.length before + 1 - List.length before)%nat with 1%nat by lia.
  simpl. now destruct after.
Qed.

Lemma strict_takes_next_argument_witness :
  IcoProMain.strict_folder (["batch_convert_to_ico_pro.py"] ++ "--strict" :: ["--changed"])
  = Started (Some "--changed").
Proof.
  apply (strict_takes_next_argument ["batch_convert_to_ico_pro.py"] ["--changed"]).
  intros [H|[]]. discriminate H.
Defined.

Lemma map_or_default {A B : Type} (f : A -> B) (d : A) (l : list A) :
  or_default (f d) (map f l) = map f (or_default d l).
Proof. now destruct l. Qed.

Lemma or_default_not_nil {A : Type} (d : A) (l : list A) : or_default d l <> [].
Proof. now destruct l. Qed.

Lemma prefix_drop (a s : string) :
  prefix a s = true -> s = (a ++ Py.drop_first (String.length a) s)%string.
Proof.
  revert s. induction a as [|c a IH]; intros s; simpl.
  - intros _. unfold Py.drop_first. now rewrite Nat.sub_0_r, substring_all.
  - destruct s as [|c' s]; [discriminate|]. simpl.
    destruct (ascii_dec c c') as [<-|_]; [|discriminate].
    intros Hp. f_equal. apply IH in Hp. exact Hp.
Qed.

Lemma is_icon_set_prefix (item : string) : is_icon_set item = true -> prefix "svg" item = true.
Proof.
  unfold is_icon_set, PyMain.startswith. intros H. apply orb_true_iff in H.
  destruct H as [H|H].
  - apply String.eqb_eq in H. now subst.
  - apply prefix_drop in H. rewrite H. apply (prefix_append "svg" ("_" ++ _)).
Qed.

Section MainPro.

Variable path_join : string -> string -> string.
Variable normpath : string -> string.
Variable isabs : string -> bool.
Variable isdir : string -> bool.
Variable script_dir : string.
Variable listdir : string -> list string.
Variable git_of : string -> git_queries.

Lemma pro_scan_closed (exclusion_list items input_folders : list string) :
  IcoProMain.scan path_join isdir script_dir exclusion_list items input_folders
  = input_folders
    ++ map (path_join script_dir)
         (filter (fun item =>
                    isdir (path_join script_dir item)
                    && (String.eqb item "svg"
                        || (PyMain.startswith item "svg_"
                            && negb (Py.mem item exclusion_list))))
                 items).
Proof.
  revert input_folders. induction items as [|item rest IH]; intros input_folders; simpl.
  - now rewrite app_nil_r.
  - destruct (isdir (path_join script_dir item)); simpl; [|apply IH].
    destruct (String.eqb item "svg"
              || (PyMain.startswith item "svg_" && negb (Py.mem item exclusion_list))).
    + rewrite IH, <- app_assoc. reflexivity.
    + apply IH.
Qed.

Lemma select_folders_not_nil (strict_folder input_folder_arg : option string)
      (input_folders : list string) :
  IcoProMain.select_folders path_join isabs isdir script_dir listdir strict_folder
    input_folder_arg = Started input_folders ->
  input_folders <> [].
Proof.
  unfold IcoProMain.select_folders.
  destruct (truthy strict_folder).
  - destruct (isdir _); [|discriminate]. intros [= <-]. discriminate.
  - destruct (truthy input_folder_arg); intros [= <-]; [discriminate|].
    apply (or_default_not_nil (path_join script_dir "svg")).
Qed.

(** X21. Without [--strict] and [--ask], the folders converted are
    [script_dir/svg] and every [script_dir/svg_...] that is a directory,
    [svg_original] left out, in the order of their names, or
    [script_dir/svg] alone when there is none; all of them are converted
    into the one folder [../Folder-Ico/ico], with the sizes 16, 32, 48, 64
    and 256. *)
Theorem pro_batch_calls (argv : list string) (answers : prompts) :
  Py.mem "--strict" argv = false ->
  Py.mem "--ask" argv = false ->
  IcoProMain.main_calls path_join isabs isdir script_dir listdir argv answers
  = Started
      (map (fun name =>
              {| call_input_folder := path_join script_dir name;
                 call_output_folder := folder_ico path_join script_dir "ico";
                 call_sizes := [16; 32; 48; 64; 256]%Z;
                 call_only_changed := Py.mem "--changed" argv |})
           (or_default "svg"
              (filter (fun item =>
                         isdir (path_join script_dir item)
                         && is_icon_set item
                         && negb (String.eqb item "svg_original"))
                      (Py.sorted_str (listdir script_dir))))).
Proof.
  intros Hstrict Hask.
  unfold IcoProMain.main_calls, IcoProMain.strict_folder. rewrite Hstrict, Hask.
  unfold IcoProMain.select_folders. simpl truthy. cbv iota.
  rewrite pro_scan_closed, app_nil_l.
  change (match map (path_join script_dir) ?l with
          | [] => [path_join script_dir "svg"]
          | _ => map (path_join script_dir) ?l
          end) with (or_default (path_join script_dir "svg") (map (path_join script_dir) l)).
  rewrite map_or_default, map_map. simpl negb. cbv iota.
  f_equal. f_equal. f_equal. apply filter_ext. intros item.
  rewrite <- andb_assoc. f_equal. unfold is_icon_set, Py.mem. simpl existsb.
  rewrite orb_false_r.
  destruct (String.eqb_spec item "svg") as [->|_]; [reflexivity|]. reflexivity.
Qed.


Lemma pro_main_calls_shape (argv : list string) (answers : prompts) (calls : list call) :
  IcoProMain.main_calls path_join isabs isdir script_dir listdir argv answers = Started calls ->
  calls <> []
  /\ Forall (fun c => call_sizes c <> []
                      /\ Forall (fun s => (0 < s)%Z) (call_sizes c)
                      /\ call_only_changed c = Py.mem "--changed" argv) calls.
Proof.
  unfold IcoProMain.main_calls.
  destruct (IcoProMain.strict_folder argv) as [code|strict]; [discriminate|].
  destruct (IcoProMain.select_folders _ _ _ _ _ _ _) as [code|input_folders] eqn:Hsel;
    [discriminate|].
  apply select_folders_not_nil in Hsel. intros [= <-]. split.
  - destruct input_folders; [contradiction|discriminate].
  - apply Forall_map, Forall_forall. intros input_folder _. simpl.
    destruct (Py.mem "--ask" argv).
    + destruct (filter _ _) as [|s l] eqn:Hf.
      * repeat split; [discriminate|]. repeat constructor.
      * repeat split; [discriminate|]. rewrite <- Hf. apply Forall_forall.
        intros x Hx. apply filter_In in Hx. destruct Hx as [_ Hx]. lia.
    + repeat split; [discriminate|]. repeat constructor.
Qed.





(** X24. The folders that can be listed and the sub-processes apart, a
    conversion started from the command line never raises [IndexError]: the
    only exception of a folder is the [UnboundLocalError] of [--changed]
    when [git rev-parse] raised there. *)
Theorem main_conversions_raise_only_without_repo_root (argv : list string)
        (answers : prompts) (calls : list call) (input_folder : string) (e : exn) :
  IcoProMain.main_calls path_join isabs isdir script_dir listdir argv answers = Started calls ->
  In (input_folder, inl e) (IcoProMain.run_calls path_join normpath listdir git_of calls) ->
  e = UnboundLocalError
  /\ Py.mem "--changed" argv = true
  /\ exists msg, rev_parse (git_of input_folder) = inl msg.
Proof.
  intros Hmain Hin. destruct (pro_main_calls_shape _ _ _ Hmain) as [_ Hall].
  unfold IcoProMain.run_calls in Hin. apply in_map_iff in Hin.
  destruct Hin as [c [Hc Hcin]]. injection Hc as Hfolder Hraise.
  rewrite Forall_forall in Hall. destruct (Hall c Hcin) as [Hne [_ Honly]].
  unfold IcoPro.convert_svg_to_ico in Hraise.
  destruct (IcoPro.changed_stage _ _ _ _ _ _ _ _) as [e'|work] eqn:Hstage; simpl in Hraise.
  - injection Hraise as ->. apply changed_stage_raise_cases in Hstage.
    destruct Hstage as [-> [Hchanged Hroot]]. rewrite Hfolder in Hroot.
    repeat split; [congruence|exact Hroot].
  - now apply render_all_sorted_returns in Hraise.
Qed.

End MainPro.

Lemma pro_batch_calls_witness :
  IcoProMain.main_calls Py.posix_join (fun _ => false)
    (fun p => negb (String.eqb p "/r/Folder11/svg_notes.txt")) "/r/Folder11"
    (fun _ => ["svg_win11"; "README.md"; "svg_original"; "svg"; "svg_notes.txt"; "svgs"])
    ["batch_convert_to_ico_pro.py"; "--changed"]
    {| input_folder_answer := ""; output_folder_answer := ""; sizes_answer := [] |}
  = Started
      [{| call_input_folder := "/r/Folder11/svg";
          call_output_folder := "/r/Folder11/../Folder-Ico/ico";
          call_sizes := [16; 32; 48; 64; 256]%Z;
          call_only_changed := true |};
       {| call_input_folder := "/r/Folder11/svg_win11";
          call_output_folder := "/r/Folder11/../Folder-Ico/ico";
          call_sizes := [16; 32; 48; 64; 256]%Z;
          call_only_changed := true |}].
Proof.
  apply (pro_batch_calls Py.posix_join (fun _ => false)
           (fun p => negb (String.eqb p "/r/Folder11/svg_notes.txt")) "/r/Folder11"
           (fun _ => ["svg_win11"; "README.md"; "svg_original"; "svg"; "svg_notes.txt"; "svgs"])
           ["batch_convert_to_ico_pro.py"; "--changed"]
           {| input_folder_answer := ""; output_folder_answer := ""; sizes_answer := [] |});
    reflexivity.
Defined.


Lemma main_conversions_raise_only_without_repo_root_witness :
  UnboundLocalError = UnboundLocalError
  /\ Py.mem "--changed" ["batch_convert_to_ico_pro.py"; "--changed"] = true
  /\ exists msg,
       rev_parse {| rev_parse := inl "not a git repository"; diff_names := inr [];
                    diff_cached := inr []; ls_others := inr [] |} = inl msg.
Proof.
  apply (main_conversions_raise_only_without_repo_root Py.posix_join (fun p => p)
           (fun _ => false) (fun _ => true) "/r/Folder11" (fun _ => ["svg"; "a.svg"])
           (fun _ => {| rev_parse := inl "not a git repository"; diff_names := inr [];
                        diff_cached := inr []; ls_others := inr [] |})
           ["batch_convert_to_ico_pro.py"; "--changed"]
           {| input_folder_answer := ""; output_folder_answer := ""; sizes_answer := [] |}
           [{| call_input_folder := "/r/Folder11/svg";
               call_output_folder := "/r/Folder11/../Folder-Ico/ico";
               call_sizes := [16; 32; 48; 64; 256]%Z;
               call_only_changed := true |}]
           "/r/Folder11/svg" UnboundLocalError).
  - reflexivity.
  - left. reflexivity.
Defined.

(** ** The command line of batch_convert_to_ico.py (lines 238-289) *)

Lemma replace_first_prefix (new s : string) :
  prefix "svg" s = true ->
  PyMain.replace_first "svg" new s = (new ++ Py.drop_first 3 s)%string.
Proof.
  intros Hp. unfold PyMain.replace_first.
  assert (Hindex : index 0 "svg" s = Some 0%nat).
  { destruct s as [|c s]; [discriminate|]. cbn [index]. now rewrite Hp. }
  rewrite Hindex. now destruct s.
Qed.

Section MainPlain.

Variable path_join : string -> string -> string.
Variable basename : string -> string.
Variable isdir : string -> bool.
Variable script_dir : string.
Variable listdir : string -> list string.

Lemma plain_scan_closed (exclusion_list items input_folders : list string) :
  IcoMain.scan path_join isdir script_dir exclusion_list items input_folders
  = input_folders
    ++ map (path_join script_dir)
         (filter (fun item =>
                    isdir (path_join script_dir item)
                    && (String.eqb item "svg"
                        || (PyMain.startswith item "svg_"
                            && negb (Py.mem item exclusion_list))))
                 items).
Proof.
  revert input_folders. induction items as [|item rest IH]; intros input_folders; simpl.
  - now rewrite app_nil_r.
  - destruct (isdir (path_join script_dir item)); simpl; [|apply IH].
    destruct (String.eqb item "svg"
              || (PyMain.startswith item "svg_" && negb (Py.mem item exclusion_list))).
    + rewrite IH, <- app_assoc. reflexivity.
    + apply IH.
Qed.

(** X25. Without [--ask], batch_convert_to_ico.py converts [script_dir/svg]
    and every [script_dir/svg_...] that is a directory, in the order of
    their names ([script_dir/svg] alone when there is none), each into a
    folder of its own under [../Folder-Ico]: the name of the input folder
    with its leading [svg] turned into [ico]. The sizes are 16, 20, 24, 32,
    40, 48, 64 and 256. *)
Theorem plain_batch_calls (argv : list string) (answers : prompts) :
  Py.mem "--ask" argv = false ->
  (forall item, In item ("svg" :: listdir script_dir) ->
                basename (path_join script_dir item) = item) ->
  IcoMain.main_calls path_join basename isdir script_dir listdir argv answers
  = map (fun name =>
           {| call_input_folder := path_join script_dir name;
              call_output_folder :=
                folder_ico path_join script_dir ("ico" ++ Py.drop_first 3 name);
              call_sizes := [16; 20; 24; 32; 40; 48; 64; 256]%Z;
              call_only_changed := Py.mem "--changed" argv |})
        (or_default "svg"
           (filter (fun item => isdir (path_join script_dir item) && is_icon_set item)
                   (Py.sorted_str (listdir script_dir)))).
Proof.
  intros Hask Hbase. unfold IcoMain.main_calls. rewrite Hask.
  unfold IcoMain.select_folders. simpl truthy. cbv iota.
  rewrite plain_scan_closed, app_nil_l.
  change (match map (path_join script_dir) ?l with
          | [] => [path_join script_dir "svg"]
          | _ => map (path_join script_dir) ?l
          end) with (or_default (path_join script_dir "svg") (map (path_join script_dir) l)).
  rewrite map_or_default, map_map.
  rewrite (filter_ext _ (fun item => isdir (path_join script_dir item) && is_icon_set item))
    by (intros item; unfold is_icon_set; simpl; now rewrite andb_true_r).
  apply map_ext_in. intros name Hname.
  assert (Hin : In name ("svg" :: listdir script_dir) /\ is_icon_set name = true).
  { destruct (filter _ _) as [|n l] eqn:Hf.
    - destruct Hname as [<-|[]]. split; [now left|reflexivity].
    - change (In name (n :: l)) in Hname. rewrite <- Hf in Hname.
      apply filter_In in Hname. destruct Hname as [Hl Hp].
      apply andb_true_iff in Hp. split; [|apply Hp]. right.
      exact (proj1 (sorted_str_In _ _) Hl). }
  destruct Hin as [Hin Hset]. f_equal.
  unfold IcoMain.current_output_folder, folder_ico.
  rewrite (Hbase name Hin), replace_first_prefix by now apply is_icon_set_prefix.
  reflexivity.
Qed.

(** X26. With [--ask], every folder is converted into the same output
    folder, the one answered or [../Folder-Ico/ico] for a blank answer, also
    when the input folder was left blank and the folders come from the
    scan: the output folder per input folder is for runs without [--ask]
    only. *)
Theorem asked_output_folder (argv : list string) (answers : prompts) :
  Py.mem "--ask" argv = true ->
  Forall (fun c => call_output_folder c
                   = if String.eqb (output_folder_answer answers) ""
                     then folder_ico path_join script_dir "ico"
                     else output_folder_answer answers)
         (IcoMain.main_calls path_join basename isdir script_dir listdir argv answers).
Proof.
  intros Hask. unfold IcoMain.main_calls. rewrite Hask.
  apply Forall_map, Forall_forall. intros input_folder _. simpl.
  now destruct (String.eqb (output_folder_answer answers) "").
Qed.

End MainPlain.

Lemma plain_batch_calls_witness :
  IcoMain.main_calls Py.posix_join Py.posix_basename (fun _ => true) "/r/Folder11"
    (fun _ => ["svg_win11"; "README.md"; "svg_original"; "svg"])
    ["batch_convert_to_ico.py"]
    {| input_folder_answer := ""; output_folder_answer := ""; sizes_answer := [] |}
  = [{| call_input_folder := "/r/Folder11/svg";
        call_output_folder := "/r/Folder11/../Folder-Ico/ico";
        call_sizes := [16; 20; 24; 32; 40; 48; 64; 256]%Z;
        call_only_changed := false |};
     {| call_input_folder := "/r/Folder11/svg_original";
        call_output_folder := "/r/Folder11/../Folder-Ico/ico_original";
        call_sizes := [16; 20; 24; 32; 40; 48; 64; 256]%Z;
        call_only_changed := false |};
     {| call_input_folder := "/r/Folder11/svg_win11";
        call_output_folder := "/r/Folder11/../Folder-Ico/ico_win11";
        call_sizes := [16; 20; 24; 32; 40; 48; 64; 256]%Z;
        call_only_changed := false |}].
Proof.
  apply (plain_batch_calls Py.posix_join Py.posix_basename (fun _ => true) "/r/Folder11"
           (fun _ => ["svg_win11"; "README.md"; "svg_original"; "svg"])
           ["batch_convert_to_ico.py"]
           {| input_folder_answer := ""; output_folder_answer := ""; sizes_answer := [] |}).
  - reflexivity.
  - intros item [<-|[<-|[<-|[<-|[<-|[]]]]]]; reflexivity.
Defined.

Lemma asked_output_folder_witness :
  Forall (fun c => call_output_folder c = "/r/Folder11/../Folder-Ico/ico")
         (IcoMain.main_calls Py.posix_join Py.posix_basename (fun _ => true) "/r/Folder11"
            (fun _ => ["svg_win11"; "svg"]) ["batch_convert_to_ico.py"; "--ask"]
            {| input_folder_answer := ""; output_folder_answer := ""; sizes_answer := [] |}).
Proof.
  apply (asked_output_folder Py.posix_join Py.posix_basename (fun _ => true) "/r/Folder11"
           (fun _ => ["svg_win11"; "svg"]) ["batch_convert_to_ico.py"; "--ask"]
           {| input_folder_answer := ""; output_folder_answer := ""; sizes_answer := [] |}).
  reflexivity.
Defined.

(** ** A whole conversion, in closed form *)

Lemma render_all_base_only (path_join : string -> string -> string) (input_folder : string)
      (listing : list string) (any_sizes : list Z) (work : list string) (sizes : list Z) :
  sizes <> [] ->
  ascending sizes = true ->
  IcoPro.render_all path_join input_folder (IcoPro.alt_filenames listing any_sizes) work sizes
  = inr (map (fun base => (base, map (fun s => (path_join input_folder base, s)) sizes)) work).
Proof.
  intros Hne Hasc. induction work as [|base rest IH]; simpl; [reflexivity|].
  rewrite pipeline_renders_base_only by assumption. rewrite IH. reflexivity.
Qed.

(** X4. What a whole [convert_svg_to_ico] with at least one size comes to,
    once the [only_changed] block has returned its work list: every file of
    the work list, in order, is rendered at every size, in ascending order,
    from the file itself; no alternative file is ever the source. *)
Theorem whole_run_closed_form (path_join : string -> string -> string)
        (normpath : string -> string) (input_folder : string) (listing : list string)
        (sizes : list Z) (only_changed : bool) (git : git_queries)
        (work printed : list string) :
  sizes <> [] ->
  IcoPro.changed_stage path_join normpath input_folder only_changed git
    (IcoPro.base_filenames listing (Py.sorted_int sizes))
    (IcoPro.alt_filenames listing (Py.sorted_int sizes)) (Py.sorted_int sizes)
  = inr (work, printed) ->
  IcoPro.convert_svg_to_ico path_join normpath input_folder listing sizes only_changed git
  = inr (map (fun base =>
                (base, map (fun s => (path_join input_folder base, s)) (Py.sorted_int sizes)))
             work).
Proof.
  intros Hne Hstage. unfold IcoPro.convert_svg_to_ico. rewrite Hstage. simpl.
  apply render_all_base_only; [|apply sorted_int_ascending].
  intros Hnil. apply sorted_nil in Hnil. contradiction.
Qed.

Lemma whole_run_closed_form_witness :
  IcoPro.convert_svg_to_ico Py.posix_join (fun p => p) "/r/svg"
    ["b.svg"; "a.svg"; "a#16px.svg"; "a-16px.svg"] [32; 16]%Z true
    {| rev_parse := inr "/r"; diff_names := inr ["svg/a.svg"];
       diff_cached := inr []; ls_others := inr ["svg/a-16px.svg"] |}
  = inr (map (fun base =>
                (base, map (fun s => (Py.posix_join "/r/svg" base, s)) (Py.sorted_int [32; 16]%Z)))
             ["a-16px.svg"; "a.svg"]).
Proof.
  apply (whole_run_closed_form Py.posix_join (fun p => p) "/r/svg"
           ["b.svg"; "a.svg"; "a#16px.svg"; "a-16px.svg"] [32; 16]%Z true
           {| rev_parse := inr "/r"; diff_names := inr ["svg/a.svg"];
              diff_cached := inr []; ls_others := inr ["svg/a-16px.svg"] |}
           ["a-16px.svg"; "a.svg"] []).
  - discriminate.
  - reflexivity.
Defined.

(** ** The suffix test on ASCII names *)

(** X1. On a string of ASCII characters the test accepts the names of the
    shape stem#<digits>px, the digits being a non-empty run of the
    characters 0 to 9, and only those: the separator is the character [#].
    (Beyond ASCII [str.isdigit] accepts other digits too.) *)
Theorem ends_with_px_ascii (s : string) :
  is_ascii s = true ->
  (IcoPro.ends_with_px s = true
   <-> exists stem digits,
         s = (stem ++ "#" ++ digits ++ "px")%string /\ decimal_digits digits = true).
Proof. intros _. apply ends_with_px_iff. Qed.

Lemma ends_with_px_ascii_witness :
  IcoPro.ends_with_px "logo#16px" = true
  <-> exists stem digits,
        "logo#16px"%string = (stem ++ "#" ++ digits ++ "px")%string
        /\ decimal_digits digits = true.
Proof. apply (ends_with_px_ascii "logo#16px"). reflexivity. Defined.

(** ** Overrides in a whole run *)

Lemma sorted_int_fixed (sizes : list Z) :
  ascending sizes = true -> Py.sorted_int sizes = sizes.
Proof.
  intros Hasc. apply sorted_le_unique.
  - apply ascending_Sorted, sorted_int_ascending.
  - now apply ascending_Sorted.
  - apply sorted_perm.
Qed.

Lemma override_is_base_file (listing : list string) (base : string) (bound s : Z)
      (sizes : list Z) :
  In (override_name base bound) listing ->
  In (override_name base bound) (IcoPro.base_filenames listing (s :: sizes)).
Proof.
  intros Hin. rewrite base_filenames_many. apply sorted_str_In, filter_In.
  split; [exact Hin|]. apply andb_true_iff. split.
  - unfold override_name.
    rewrite !lower_append, <- !append_assoc.
    apply (endswith_append_r _ (Py.lower "px.svg") ".svg"). simpl. lia.
  - change (override_name base bound) with (IcoPro.variant_name base bound).
    now rewrite variant_fails_px.
Qed.

Lemma alt_sources_none (path_join : string -> string -> string) (input_folder base : string)
      (bound : Z) (sizes : list Z) :
  ~ In bound sizes ->
  alt_sources path_join input_folder [override_name base bound] base sizes = [].
Proof.
  induction sizes as [|s sizes IH]; intros Hnot; [reflexivity|].
  rewrite alt_sources_cons.
  change (override_name base bound) with (IcoPro.variant_name base bound).
  unfold Py.mem. simpl existsb.
  destruct (String.eqb_spec (IcoPro.variant_name base s) (IcoPro.variant_name base bound))
    as [Heq|_].
  - apply variant_name_inj in Heq. exfalso. apply Hnot. now left.
  - simpl. apply IH. intros Hin. apply Hnot. now right.
Qed.

Lemma alt_sources_one (path_join : string -> string -> string) (input_folder base : string)
      (bound : Z) (sizes : list Z) :
  StronglySorted Z.lt sizes ->
  In bound sizes ->
  alt_sources path_join input_folder [override_name base bound] base sizes
  = [alt_source path_join input_folder base bound].
Proof.
  induction 1 as [|s sizes Hsorted IH Hlt]; intros Hin; [contradiction|].
  rewrite alt_sources_cons.
  change (override_name base bound) with (IcoPro.variant_name base bound).
  unfold Py.mem. simpl existsb.
  destruct (String.eqb_spec (IcoPro.variant_name base s) (IcoPro.variant_name base bound))
    as [Heq|Hneq].
  - apply variant_name_inj in Heq. subst s. simpl.
    change (IcoPro.variant_name base bound) with (override_name base bound).
    rewrite alt_sources_none; [reflexivity|].
    intros Hrest. rewrite Forall_forall in Hlt. specialize (Hlt _ Hrest). lia.
  - simpl. destruct Hin as [->|Hin]; [contradiction|].
    change (IcoPro.variant_name base bound) with (override_name base bound). now apply IH.
Qed.

(** C1. In a run of [convert_svg_to_ico], the file the docstring names as
    the source of the small sizes of [base], stem-<bound>px.svg, is in the
    folder and is never chosen: every size of [base] is rendered from
    [base] itself, and the file is converted as an icon of its own. The
    choice of lines 89-128 is not at fault: given that file in
    [alt_filenames], it renders the sizes up to [bound] from it and the
    others from [base]. The list of lines 43-44 never holds the file. *)
Theorem override_in_folder_never_chosen (path_join : string -> string -> string)
        (normpath : string -> string) (input_folder : string) (listing : list string)
        (sizes : list Z) (git : git_queries) (base : string) (bound : Z) :
  strictly_increasing sizes = true ->
  In bound sizes ->
  In base (IcoPro.base_filenames listing sizes) ->
  In (override_name base bound) listing ->
  (exists plans,
     IcoPro.convert_svg_to_ico path_join normpath input_folder listing sizes false git
     = inr plans
     /\ In (base, map (fun size => (path_join input_folder base, size)) sizes) plans
     /\ In (override_name base bound) (map fst plans))
  /\ IcoPro.render_calls path_join input_folder [override_name base bound] base sizes
     = inr (map (fun size =>
                   (path_join input_folder
                      (if (size <=? bound)%Z then override_name base bound else base),
                    size))
                sizes).
Proof.
  intros Hinc Hbound Hbase Hfile.
  pose proof (increasing_ascending _ Hinc) as Hasc.
  assert (Hne : sizes <> []) by (intros ->; contradiction).
  split.
  - unfold IcoPro.convert_svg_to_ico, IcoPro.changed_stage. simpl bind. simpl fst.
    rewrite (sorted_int_fixed sizes Hasc).
    rewrite render_all_base_only by assumption.
    eexists. split; [reflexivity|]. split.
    + apply (in_map (fun b => (b, map (fun size => (path_join input_folder b, size)) sizes))).
      exact Hbase.
    + rewrite map_map. simpl. rewrite map_id.
      destruct sizes as [|s rest]; [contradiction|]. now apply override_is_base_file.
  - destruct (last_item_some sizes Hne) as [l [largest [Heq Hlast]]].
    pose proof (ascending_below_last sizes largest Hasc Hlast) as Hall.
    pose proof (increasing_Sorted _ Hinc) as Hsorted.
    set (last := {| path := path_join input_folder base; maximum_size := largest |}).
    transitivity
      (@inr exn _
         (map (fun s =>
                 (fit_path (alt_sources path_join input_folder [override_name base bound]
                                        base sizes ++ [last]) s, s))
              sizes)).
    + unfold IcoPro.render_calls. rewrite (build_inputs_closed _ _ _ _ _ largest Hlast).
      apply (pop_and_render_fit path_join input_folder [override_name base bound] base last);
        assumption.
    + f_equal. apply map_ext_in. intros s Hs. f_equal.
      rewrite alt_sources_one by assumption.
      unfold fit_path, first_fit. simpl find.
      destruct (s <=? bound)%Z; [reflexivity|].
      rewrite Forall_forall in Hall. specialize (Hall s Hs).
      destruct (Z.leb_spec s largest); [reflexivity|lia].
Qed.

Lemma override_in_folder_never_chosen_witness :
  (exists plans,
     IcoPro.convert_svg_to_ico Py.posix_join (fun p => p) "svg"
       ["base.svg"; "base-32px.svg"; "base-64px.svg"] [16; 32; 48; 64; 256]%Z false
       {| rev_parse := inr ""; diff_names := inr []; diff_cached := inr [];
          ls_others := inr [] |}
     = inr plans
     /\ In ("base.svg",
            [("svg/base.svg", 16); ("svg/base.svg", 32); ("svg/base.svg", 48);
             ("svg/base.svg", 64); ("svg/base.svg", 256)]%Z) plans
     /\ In "base-32px.svg" (map fst plans))
  /\ IcoPro.render_calls Py.posix_join "svg" ["base-32px.svg"] "base.svg"
       [16; 32; 48; 64; 256]%Z
     = inr [("svg/base-32px.svg", 16); ("svg/base-32px.svg", 32); ("svg/base.svg", 48);
            ("svg/base.svg", 64); ("svg/base.svg", 256)]%Z.
Proof.
  apply (override_in_folder_never_chosen Py.posix_join (fun p => p) "svg"
           ["base.svg"; "base-32px.svg"; "base-64px.svg"] [16; 32; 48; 64; 256]%Z
           {| rev_parse := inr ""; diff_names := inr []; diff_cached := inr [];
              ls_others := inr [] |}
           "base.svg" 32%Z).
  - reflexivity.
  - right. left. reflexivity.
  - vm_compute. right. right. left. reflexivity.
  - right. left. reflexivity.
Defined.

(** ** Changed overrides in a whole run *)

Lemma variant_changed_computed (path_join : string -> string -> string)
      (normpath : string -> string) (input_folder : string) (listing : list string)
      (any_sizes : list Z) (changed_paths : list string) (base : string) (sizes : list Z) :
  IcoPro.variant_changed path_join normpath input_folder
    (IcoPro.alt_filenames listing any_sizes) changed_paths base sizes = false.
Proof.
  induction sizes as [|s sizes IH]; simpl; [reflexivity|].
  now rewrite variant_never_alternative.
Qed.

(** C4. In a run with [only_changed], with the four git queries answered,
    the work list is the list of the base files whose own path is in the
    change set, and nothing else counts: a base file is left out although
    the path of stem-<bound>px.svg, [bound] a requested size, is in the
    change set. The loop of lines 63-77 is not at fault: given that file in
    [alt_filenames], it keeps the base file. The list of lines 43-44 never
    holds the file. *)
Theorem changed_override_not_followed (path_join : string -> string -> string)
        (normpath : string -> string) (input_folder : string) (listing : list string)
        (sizes : list Z) (git : git_queries) (out : string) (changed_paths : list string)
        (base : string) (bound : Z) (base_list : list string) :
  In bound sizes ->
  rev_parse git = inr out ->
  IcoPro.collect_changed path_join normpath (Py.strip out)
    [diff_names git; diff_cached git; ls_others git] [] = inr changed_paths ->
  In (in_folder path_join normpath input_folder (override_name base bound)) changed_paths ->
  ~ In (in_folder path_join normpath input_folder base) changed_paths ->
  (exists plans,
     IcoPro.convert_svg_to_ico path_join normpath input_folder listing sizes true git
     = inr plans
     /\ map fst plans
        = filter (fun b => Py.mem (in_folder path_join normpath input_folder b) changed_paths)
                 (IcoPro.base_filenames listing (Py.sorted_int sizes))
     /\ ~ In base (map fst plans))
  /\ (In base base_list ->
      In base (IcoPro.filter_loop path_join normpath input_folder [override_name base bound]
                 changed_paths sizes base_list [])).
Proof.
  intros Hbound Hroot Hcollect Hoverride Hown. split.
  - unfold IcoPro.convert_svg_to_ico, IcoPro.changed_stage.
    rewrite Hroot, Hcollect. simpl bind. simpl fst.
    rewrite filter_loop_filter, app_nil_l.
    rewrite (filter_ext _ (fun b => Py.mem (in_folder path_join normpath input_folder b)
                                           changed_paths))
      by (intros b; rewrite variant_changed_computed; apply orb_false_r).
    destruct (render_all_total path_join input_folder
                (IcoPro.alt_filenames listing (Py.sorted_int sizes))
                (filter (fun b => Py.mem (in_folder path_join normpath input_folder b)
                                         changed_paths)
                        (IcoPro.base_filenames listing (Py.sorted_int sizes)))
                (Py.sorted_int sizes)) as [plans [Hplans Hfst]].
    + intros Hnil. apply sorted_nil in Hnil. now subst.
    + apply sorted_int_ascending.
    + exists plans. split; [exact Hplans|]. split; [exact Hfst|].
      rewrite Hfst. intros Hin. apply filter_In in Hin. destruct Hin as [_ Hmem].
      apply mem_In in Hmem. contradiction.
  - intros Hbase. rewrite filter_loop_filter, app_nil_l. apply filter_In.
    split; [exact Hbase|]. apply orb_true_iff. right. apply variant_changed_iff.
    exists bound. split; [exact Hbound|]. split; [now left|exact Hoverride].
Qed.

Lemma changed_override_not_followed_witness :
  (exists plans,
     IcoPro.convert_svg_to_ico Py.posix_join (fun p => p) "/r/svg"
       ["b.svg"; "b-16px.svg"; "c.svg"] [16; 32]%Z true
       {| rev_parse := inr "/r"; diff_names := inr ["svg/b-16px.svg"];
          diff_cached := inr []; ls_others := inr [] |}
     = inr plans
     /\ map fst plans = ["b-16px.svg"]
     /\ ~ In "b.svg" (map fst plans))
  /\ (In "b.svg" ["b.svg"; "c.svg"] ->
      In "b.svg" (IcoPro.filter_loop Py.posix_join (fun p => p) "/r/svg" ["b-16px.svg"]
                    ["/r/svg/b-16px.svg"] [16; 32]%Z ["b.svg"; "c.svg"] [])).
Proof.
  apply (changed_override_not_followed Py.posix_join (fun p => p) "/r/svg"
           ["b.svg"; "b-16px.svg"; "c.svg"] [16; 32]%Z
           {| rev_parse := inr "/r"; diff_names := inr ["svg/b-16px.svg"];
              diff_cached := inr []; ls_others := inr [] |}
           "/r" ["/r/svg/b-16px.svg"] "b.svg" 16%Z ["b.svg"; "c.svg"]).
  - left. reflexivity.
  - reflexivity.
  - reflexivity.
  - left. reflexivity.
  - intros [H|[]]. discriminate H.
Defined.

(** The path of a base file is compared as [os.path.join(input_folder,
    base)] leaves it, not made absolute: with a relative input folder no
    path of the change set, all under the repository root, is ever equal
    to it, and a changed base file is left out. *)
Example relative_input_folder_keeps_nothing :
  IcoPro.convert_svg_to_ico Py.posix_join (fun p => p) "svg" ["a.svg"] [16; 32]%Z true
    {| rev_parse := inr "/r"; diff_names := inr ["svg/a.svg"];
       diff_cached := inr []; ls_others := inr [] |}
  = inr [].
Proof. reflexivity. Qed.
